(** * Globe News front end: [static/js/main.js]

    A shallow embedding of the page controller of the news site and the
    properties its specification states about it.

    Conventions of the embedding.
    - A JavaScript string is a [string]; every character stands for one
      code unit in the range 0..255.
    - A JavaScript number that holds an integer is a [Z]; [NaN] is [None].
      The numbers the controller computes with (page numbers, elapsed
      milliseconds) are exact in JavaScript below 2^53.
    - The page is a record [Page]; an event handler is a function
      [Page -> Page].  An [async] handler is cut at its [await]: the part
      before the request, and the continuation that receives the outcome.
    - Markup assigned through [innerHTML] is kept as the text the code
      builds; it is not parsed into elements.
    - The document is the sequence of the elements that the class queries
      of the code find (article cards and notifications), each with an
      identity, and the widgets the code finds by id.  The back-end status
      check, the statistics and the injected style sheet (lines 185-240
      and 442-506) touch none of them and are left out. *)

From Stdlib Require Import ZArith List String Ascii Bool Lia DecimalString.
Import ListNotations.

Open Scope string_scope.
Open Scope Z_scope.

(** ** Strings *)

Module Str.

(** The double quote character.  Markup templates below are written with a
    backquote where the source has a double quote; [q] puts the double
    quotes back.  (A backquote delimits the template literals of the source,
    so none occurs inside them.) *)
Definition dquote : ascii := ascii_of_nat 34.
Definition backquote : ascii := ascii_of_nat 96.

Fixpoint q (s : string) : string :=
  match s with
  | EmptyString => EmptyString
  | String c r => String (if Ascii.eqb c backquote then dquote else c) (q r)
  end.

(** [needle] occurs in [hay]. *)
Definition Contains (needle hay : string) : Prop :=
  exists pre post, hay = pre ++ needle ++ post.

(** Decidable version, by scanning the prefixes of every suffix. *)
Fixpoint containsb (needle hay : string) : bool :=
  String.prefix needle hay ||
  match hay with
  | EmptyString => false
  | String _ r => containsb needle r
  end.

(** How many suffixes of [hay] start with [needle]. *)
Fixpoint count_occurrences (needle hay : string) : nat :=
  ((if String.prefix needle hay then 1 else 0) +
   match hay with
   | EmptyString => 0
   | String _ r => count_occurrences needle r
   end)%nat.

(** [s] holds no [<]: nothing in it opens a tag. *)
Fixpoint plain (s : string) : bool :=
  match s with
  | EmptyString => true
  | String c r => negb (Ascii.eqb c "<") && plain r
  end.

(** No end of [l] is a beginning of [needle] that stops short of it, so no
    occurrence of [needle] starts in [l] and ends after it. *)
Fixpoint closed_for (needle l : string) : bool :=
  match l with
  | EmptyString => true
  | String _ r =>
      negb ((String.length l <? String.length needle)%nat && String.prefix l needle)
      && closed_for needle r
  end.

(** The strings of [l] in a row. *)
Definition join (l : list string) : string := fold_right append EmptyString l.

(** White space of ECMAScript ([trim], [parseInt]) among the code units
    0..255: TAB, LF, VT, FF, CR, SP and NBSP. *)
Definition is_whitespace (c : ascii) : bool :=
  let n := nat_of_ascii c in
  ((9 <=? n) && (n <=? 13))%nat || (n =? 32)%nat || (n =? 160)%nat.

Fixpoint trimStart (s : string) : string :=
  match s with
  | EmptyString => EmptyString
  | String c r => if is_whitespace c then trimStart r else s
  end.

(** [trimEnd] keeps a character when it is not white space or when
    something that is kept follows it. *)
Fixpoint trimEnd (s : string) : string :=
  match s with
  | EmptyString => EmptyString
  | String c r =>
      match trimEnd r with
      | EmptyString => if is_whitespace c then EmptyString else String c EmptyString
      | r' => String c r'
      end
  end.

Definition trim (s : string) : string := trimEnd (trimStart s).

(** [String.prototype.substring(0, n)] for [0 <= n]. *)
Definition substring0 (n : nat) (s : string) : string := String.substring 0 n s.

(** [ToString] of an integer number. *)
Definition of_Z (z : Z) : string := NilZero.string_of_int (Z.to_int z).

(** *** [parseInt(s)] with no radix argument. *)

Definition digit_value (c : ascii) : option Z :=
  let n := Z.of_nat (nat_of_ascii c) in
  if (48 <=? n) && (n <=? 57) then Some (n - 48)
  else if (97 <=? n) && (n <=? 122) then Some (n - 87)
  else if (65 <=? n) && (n <=? 90) then Some (n - 55)
  else None.

(** Longest prefix of digits of radix [R], read with accumulator [acc];
    [None] when there is no digit at all. *)
Fixpoint digits (R : Z) (s : string) (acc : option Z) : option Z :=
  match s with
  | EmptyString => acc
  | String c r =>
      match digit_value c with
      | Some d =>
          if d <? R
          then digits R r (Some (match acc with Some a => a * R + d | None => d end))
          else acc
      | None => acc
      end
  end.

Definition strip_sign (s : string) : Z * string :=
  match s with
  | String c r =>
      if Ascii.eqb c "-" then (-1, r)
      else if Ascii.eqb c "+" then (1, r)
      else (1, s)
  | EmptyString => (1, s)
  end.

Definition strip_hex (s : string) : Z * string :=
  match s with
  | String c0 (String c1 r) =>
      if Ascii.eqb c0 "0" && (Ascii.eqb c1 "x" || Ascii.eqb c1 "X")
      then (16, r) else (10, s)
  | _ => (10, s)
  end.

(** [None] is [NaN]. *)
Definition parseInt (s : string) : option Z :=
  let (sign, s1) := strip_sign (trimStart s) in
  let (R, s2) := strip_hex s1 in
  match digits R s2 None with
  | Some n => Some (sign * n)
  | None => None
  end.

(** Class tokens of a [className]: split at HTML white space. *)
Definition is_space (c : ascii) : bool :=
  let n := nat_of_ascii c in
  (n =? 32)%nat || (n =? 9)%nat || (n =? 10)%nat || (n =? 12)%nat || (n =? 13)%nat.

Fixpoint split_spaces (s : string) : list string :=
  match s with
  | EmptyString => [EmptyString]
  | String c r =>
      if is_space c then EmptyString :: split_spaces r
      else match split_spaces r with
           | t :: ts => String c t :: ts
           | [] => [String c EmptyString]
           end
  end.

Definition classList (className : string) : list string :=
  filter (fun t => negb (String.eqb t EmptyString)) (split_spaces className).

(** The element matches the selector [.c]. *)
Definition has_class (c className : string) : bool :=
  existsb (String.eqb c) (classList className).

End Str.

Import Str.

(** ** Configuration (lines 2-3) *)

Definition BACKEND_URL : string := "http://localhost:8000".
Definition FRONTEND_URL : string := "http://localhost:5000".

(** ** Data model *)

(** An article as the back end sends it (view projection). *)
Record Article := mkArticle {
  article_id : string;
  title : string;
  description : option string;      (* absent, [null] or a string *)
  source : string;
  category_name : string;
  language : string;
  published_at : string;
  url_to_image : option string      (* absent, [null] or a string *)
}.

(** The body of a listing response, [{ articles: [...] }]; [None] when the
    property is absent or [null]. *)
Record Listing := mkListing { articles : option (list Article) }.

(** Any JSON value, for a body the code parses and does not read. *)
Unset Elimination Schemes.
Inductive json :=
| JNull
| JBool (b : bool)
| JNumber (z : Z)
| JString (s : string)
| JArray (l : list json)
| JObject (l : list (string * json)).
Set Elimination Schemes.

(** What the two [await]s of a handler ([fetch], then [response.json()])
    deliver to the code after them. *)
Inductive outcome (A : Type) :=
| NetworkError            (* [fetch] rejects *)
| ParseError              (* [response.json()] rejects *)
| Resolved (data : A).
Arguments NetworkError {A}.
Arguments ParseError {A}.
Arguments Resolved {A} data.

(** An element that the class queries of the code can find: an article card
    or a notification.  In the document it is paired with its identity. *)
Record Element := mkElement {
  className : string;
  dataset_language : option string;  (* [data-language], if present *)
  innerHTML : string;
  display : string;                  (* [style.display] *)
  opacity : string;                  (* [style.opacity] *)
  transform : string                 (* [style.transform] *)
}.

(** [#fetchNewsBtn] and [#loadMoreBtn]. *)
Record Button := mkButton {
  btn_innerHTML : string;
  btn_disabled : bool;
  btn_display : string
}.

(** [#searchResults]. *)
Record Box := mkBox { box_innerHTML : string; box_display : string }.

(** A [.language-btn]: its [data-language] and whether its class list has
    [active]. *)
Record LanguageButton := mkLanguageButton {
  lb_language : option string;
  lb_active : bool
}.

(** The query string of the location, as [URLSearchParams] holds it. *)
Definition URLSearchParams := list (string * string).

(** What a pending timer runs.  The mutable [countdown] of the interval of
    lines 264-273 travels with its timer. *)
Inductive callback :=
| FadeIn (card : nat)        (* lines 30-33 and 72-75 *)
| Hide (card : nat)          (* lines 37-39 and 79-81 *)
| AutoRemove (n : nat)       (* lines 432-436 *)
| Countdown (countdown : Z). (* lines 265-273 *)

(** What the page does to the world outside the document, oldest first. *)
Inductive effect :=
| Fetch (method url : string)
| ConsoleError (label : string)
| Notify (message type : string)
| SetTimeout (delay : Z)
| SetInterval (delay : Z)
| ClearInterval
| PushState (search : URLSearchParams)
| Reload.

Record Page := mkPage {
  now : Z;                                (* the clock, in milliseconds *)
  fresh : nat;                            (* identity of the next element *)
  elements : list (nat * Element);        (* identity and element, in the order the queries list them *)
  articleCards : list nat;                (* the NodeList captured at line 18 *)
  languageButtons : list LanguageButton;  (* the NodeList captured at line 17 *)
  articleCount : option string;           (* text of [#articleCount], if present *)
  searchResults : option Box;
  fetchNewsBtn : Button;
  loadMoreBtn : Button;
  articles_grid : bool;                   (* [.articles-grid] is present *)
  search : URLSearchParams;               (* [window.location.search] *)
  history : list URLSearchParams;         (* the entries before the current one *)
  timers : list (Z * callback);           (* due time and callback, in order of creation *)
  effects : list effect
}.

(** Field updates. *)
Definition set_now (v : Z) (p : Page) : Page :=
  mkPage v (fresh p) (elements p) (articleCards p) (languageButtons p) (articleCount p)
         (searchResults p) (fetchNewsBtn p) (loadMoreBtn p) (articles_grid p) (search p)
         (history p) (timers p) (effects p).
Definition set_fresh (v : nat) (p : Page) : Page :=
  mkPage (now p) v (elements p) (articleCards p) (languageButtons p) (articleCount p)
         (searchResults p) (fetchNewsBtn p) (loadMoreBtn p) (articles_grid p) (search p)
         (history p) (timers p) (effects p).
Definition set_elements (v : list (nat * Element)) (p : Page) : Page :=
  mkPage (now p) (fresh p) v (articleCards p) (languageButtons p) (articleCount p)
         (searchResults p) (fetchNewsBtn p) (loadMoreBtn p) (articles_grid p) (search p)
         (history p) (timers p) (effects p).
Definition set_articleCards (v : list nat) (p : Page) : Page :=
  mkPage (now p) (fresh p) (elements p) v (languageButtons p) (articleCount p)
         (searchResults p) (fetchNewsBtn p) (loadMoreBtn p) (articles_grid p) (search p)
         (history p) (timers p) (effects p).
Definition set_languageButtons (v : list LanguageButton) (p : Page) : Page :=
  mkPage (now p) (fresh p) (elements p) (articleCards p) v (articleCount p) (searchResults p)
         (fetchNewsBtn p) (loadMoreBtn p) (articles_grid p) (search p) (history p)
         (timers p) (effects p).
Definition set_articleCount (v : option string) (p : Page) : Page :=
  mkPage (now p) (fresh p) (elements p) (articleCards p) (languageButtons p) v
         (searchResults p) (fetchNewsBtn p) (loadMoreBtn p) (articles_grid p) (search p)
         (history p) (timers p) (effects p).
Definition set_searchResults (v : option Box) (p : Page) : Page :=
  mkPage (now p) (fresh p) (elements p) (articleCards p) (languageButtons p) (articleCount p)
         v (fetchNewsBtn p) (loadMoreBtn p) (articles_grid p) (search p) (history p)
         (timers p) (effects p).
Definition set_fetchNewsBtn (v : Button) (p : Page) : Page :=
  mkPage (now p) (fresh p) (elements p) (articleCards p) (languageButtons p) (articleCount p)
         (searchResults p) v (loadMoreBtn p) (articles_grid p) (search p) (history p)
         (timers p) (effects p).
Definition set_loadMoreBtn (v : Button) (p : Page) : Page :=
  mkPage (now p) (fresh p) (elements p) (articleCards p) (languageButtons p) (articleCount p)
         (searchResults p) (fetchNewsBtn p) v (articles_grid p) (search p) (history p)
         (timers p) (effects p).
Definition set_articles_grid (v : bool) (p : Page) : Page :=
  mkPage (now p) (fresh p) (elements p) (articleCards p) (languageButtons p) (articleCount p)
         (searchResults p) (fetchNewsBtn p) (loadMoreBtn p) v (search p) (history p)
         (timers p) (effects p).
Definition set_search (v : URLSearchParams) (p : Page) : Page :=
  mkPage (now p) (fresh p) (elements p) (articleCards p) (languageButtons p) (articleCount p)
         (searchResults p) (fetchNewsBtn p) (loadMoreBtn p) (articles_grid p) v
         (history p) (timers p) (effects p).
Definition set_history (v : list URLSearchParams) (p : Page) : Page :=
  mkPage (now p) (fresh p) (elements p) (articleCards p) (languageButtons p) (articleCount p)
         (searchResults p) (fetchNewsBtn p) (loadMoreBtn p) (articles_grid p) (search p)
         v (timers p) (effects p).
Definition set_timers (v : list (Z * callback)) (p : Page) : Page :=
  mkPage (now p) (fresh p) (elements p) (articleCards p) (languageButtons p) (articleCount p)
         (searchResults p) (fetchNewsBtn p) (loadMoreBtn p) (articles_grid p) (search p)
         (history p) v (effects p).
Definition set_effects (v : list effect) (p : Page) : Page :=
  mkPage (now p) (fresh p) (elements p) (articleCards p) (languageButtons p) (articleCount p)
         (searchResults p) (fetchNewsBtn p) (loadMoreBtn p) (articles_grid p) (search p)
         (history p) (timers p) v.

(** ** URLSearchParams *)

Module Params.

Definition get (name : string) (ps : URLSearchParams) : option string :=
  match find (fun kv => String.eqb (fst kv) name) ps with
  | Some kv => Some (snd kv)
  | None => None
  end.

Definition delete (name : string) (ps : URLSearchParams) : URLSearchParams :=
  filter (fun kv => negb (String.eqb (fst kv) name)) ps.

(** [set] overwrites the first pair named [name] and drops the others, or
    appends a pair when there is none. *)
Fixpoint set (name value : string) (ps : URLSearchParams) : URLSearchParams :=
  match ps with
  | [] => [(name, value)]
  | kv :: r =>
      if String.eqb (fst kv) name then (name, value) :: delete name r
      else kv :: set name value r
  end.

End Params.

(** ** Queries and updates of the document *)

Definition matches (c : string) (ne : nat * Element) : bool :=
  has_class c (className (snd ne)).

Definition querySelectorAll (c : string) (p : Page) : list (nat * Element) :=
  filter (matches c) (elements p).

Definition getElement (n : nat) (p : Page) : option Element :=
  match find (fun ne => Nat.eqb (fst ne) n) (elements p) with
  | Some ne => Some (snd ne)
  | None => None
  end.

(** Apply [f] to the element [n]. *)
Definition update (n : nat) (f : Element -> Element) (p : Page) : Page :=
  set_elements
    (map (fun ne => if Nat.eqb (fst ne) n then (fst ne, f (snd ne)) else ne) (elements p)) p.

(** [e.remove()]. *)
Definition remove (n : nat) (p : Page) : Page :=
  set_elements (filter (fun ne => negb (Nat.eqb (fst ne) n)) (elements p)) p.

(** [parent.appendChild(e)] for an element just created: it gets the next
    identity. *)
Definition appendChild (e : Element) (p : Page) : Page :=
  set_fresh (S (fresh p)) (set_elements (elements p ++ [(fresh p, e)]) p).

Definition emit (e : effect) (p : Page) : Page :=
  set_effects (effects p ++ [e]) p.

Definition setTimeout (cb : callback) (delay : Z) (p : Page) : Page :=
  emit (SetTimeout delay) (set_timers (timers p ++ [(now p + delay, cb)]) p).

Definition style_display (v : string) (e : Element) : Element :=
  mkElement (className e) (dataset_language e) (innerHTML e) v (opacity e) (transform e).
Definition style_opacity (v : string) (e : Element) : Element :=
  mkElement (className e) (dataset_language e) (innerHTML e) (display e) v (transform e).
Definition style_transform (v : string) (e : Element) : Element :=
  mkElement (className e) (dataset_language e) (innerHTML e) (display e) (opacity e) v.

Definition option_eqb (a b : option string) : bool :=
  match a, b with
  | Some x, Some y => String.eqb x y
  | None, None => true
  | _, _ => false
  end.

(** ** Sample pages and a sample host, for concrete runs *)

Module Sample.

(** A host that reads one date, the epoch, and prints dates by their
    millisecond count. *)
Definition Date_parse (s : string) : option Z :=
  if String.eqb s "1970-01-01T00:00:00.000Z" then Some 0 else None.

Definition toLocaleDateString (ms : Z) : string := of_Z ms.

Definition upper (c : ascii) : ascii :=
  let n := nat_of_ascii c in
  if ((97 <=? n) && (n <=? 122))%nat then ascii_of_nat (n - 32) else c.

Fixpoint toUpperCase (s : string) : string :=
  match s with
  | EmptyString => EmptyString
  | String c r => String (upper c) (toUpperCase r)
  end.

(** A page with a results container, a count label, both buttons and the
    grid, no card yet, at time 0. *)
Definition blank : Page :=
  mkPage 0 0 [] [] [] (Some "0 articles") (Some (mkBox EmptyString "none"))
         (mkButton "Fetch News" false EmptyString)
         (mkButton "Load More" false EmptyString)
         true [] [] [] [].

(** A server-rendered card. *)
Definition card (language : string) : Element :=
  mkElement "article-card" (Some language) "<h3>...</h3>" EmptyString EmptyString EmptyString.

Definition article (id title language : string) : Article :=
  mkArticle id title (Some "Text") "Source" "News" language "1970-01-01T00:00:00.000Z" None.

End Sample.


(** ** The controller *)

Section Controller.

(** Built-ins of the host that the embedding leaves open. *)
Variable Date_parse : string -> option Z.     (* [new Date(s)] in ms; [None] is Invalid Date *)
Variable toLocaleDateString : Z -> string.    (* of a valid date, in the default locale *)
Variable toUpperCase : string -> string.
Variable encodeURIComponent : string -> string.

(** *** formatTimeAgo (lines 388-405)

    [t] is the reading of the clock, [new Date()].  With an invalid date
    every comparison is false and the date prints as [Invalid Date]. *)
Definition formatTimeAgo (t : Z) (dateString : string) : string :=
  match Date_parse dateString with
  | None => "Invalid Date"
  | Some date =>
      let seconds := (t - date) / 1000 in
      if seconds <? 60 then "just now" else
      let minutes := seconds / 60 in
      if minutes <? 60 then of_Z minutes ++ "m ago" else
      let hours := minutes / 60 in
      if hours <? 24 then of_Z hours ++ "h ago" else
      let days := hours / 24 in
      if days <? 7 then of_Z days ++ "d ago" else
      toLocaleDateString date
  end.

(** *** showNotification (lines 410-437) *)

Definition notification_html (message type : string) : string :=
  q "
        <div class=`notification-content`>
            <i class=`fas fa-" ++ (if String.eqb type "success" then "check-circle" else "exclamation-circle") ++ q "`></i>
            <span>" ++ message ++ q "</span>
        </div>
        <button class=`notification-close` onclick=`this.parentElement.remove()`>
            <i class=`fas fa-times`></i>
        </button>
    ".

Definition showNotification (message : string) (type : option string) (p : Page) : Page :=
  let type := match type with Some t => t | None => "info" end in
  (* Remove existing notifications *)
  let p := set_elements (filter (fun ne => negb (matches "notification" ne)) (elements p)) p in
  (* Create notification, add to page *)
  let notification := fresh p in
  let p := appendChild (mkElement ("notification " ++ type) None
                          (notification_html message type) "" "" "") p in
  (* Auto-remove after 5 seconds *)
  setTimeout (AutoRemove notification) 5000 (emit (Notify message type) p).

(** The close button of notification [n]: [this.parentElement.remove()]. *)
Definition notification_close (n : nat) (p : Page) : Page := remove n p.

(** *** Language filter (lines 16-89) *)

(** [selectedLanguage === 'all' || cardLanguage === selectedLanguage] *)
Definition selects (selectedLanguage cardLanguage : option string) : bool :=
  option_eqb selectedLanguage (Some "all") || option_eqb cardLanguage selectedLanguage.

(** The body of the two loops over [articleCards] (lines 25-41 and 67-83,
    the same text).  A card of the captured list that has left the document
    is passed over. *)
Definition filterCard (selectedLanguage : option string) (p : Page) (card : nat) : Page :=
  match getElement card p with
  | None => p
  | Some e =>
      if selects selectedLanguage (dataset_language e) then
        setTimeout (FadeIn card) 10 (update card (style_display "block") p)
      else
        setTimeout (Hide card) 300
          (update card (style_transform "translateY(20px)")
             (update card (style_opacity "0") p))
  end.

Definition filterCards (selectedLanguage : option string) (p : Page) : Page :=
  fold_left (filterCard selectedLanguage) (articleCards p) p.

Definition pushState (url : URLSearchParams) (p : Page) : Page :=
  emit (PushState url) (set_search url (set_history (history p ++ [search p]) p)).

(** [initializeLanguageFilter] itself: the two NodeLists are captured once. *)
Definition initializeLanguageFilter (p : Page) : Page :=
  set_articleCards (map fst (querySelectorAll "article-card" p)) p.

(** The [change] listener of [#languageFilter] (lines 22-51). *)
Definition languageFilter_change (value : string) (p : Page) : Page :=
  let selectedLanguage := value in
  let p := filterCards (Some selectedLanguage) p in
  (* Update URL without reload *)
  let url :=
    if String.eqb selectedLanguage "all" then Params.delete "language" (search p)
    else Params.set "language" selectedLanguage (search p) in
  pushState url p.

(** updateArticleCount (lines 94-111) *)
Definition updateArticleCount (language : option string) (p : Page) : Page :=
  let articleCards := querySelectorAll "article-card" p in
  let visibleCount :=
    fold_left (fun visibleCount card =>
                 if selects language (dataset_language (snd card)) then
                   if negb (String.eqb (display (snd card)) "none")
                   then visibleCount + 1 else visibleCount
                 else visibleCount)
              articleCards 0 in
  match articleCount p with
  | Some _ => set_articleCount (Some (of_Z visibleCount ++ " articles")) p
  | None => p
  end.

Fixpoint activate (i : nat) (bs : list LanguageButton) : list LanguageButton :=
  match bs, i with
  | [], _ => []
  | b :: r, O => mkLanguageButton (lb_language b) true :: r
  | b :: r, S i' => b :: activate i' r
  end.

(** The [click] listener of the [i]-th [.language-btn] (lines 56-87). *)
Definition languageButton_click (i : nat) (p : Page) : Page :=
  match nth_error (languageButtons p) i with
  | None => p
  | Some this =>
      (* Remove active class from all buttons, add it to the clicked one *)
      let bs := map (fun btn => mkLanguageButton (lb_language btn) false) (languageButtons p) in
      let p := set_languageButtons (activate i bs) p in
      let selectedLanguage := lb_language this in
      let p := filterCards selectedLanguage p in
      updateArticleCount selectedLanguage p
  end.

(** *** createArticleCard (lines 339-383) *)

Definition placeholder_image : string :=
  "https://images.unsplash.com/photo-1588681664899-f142ff2dc9b1?ixlib=rb-4.0.3&auto=format&fit=crop&w=500&q=60".

Definition card_badge (article : Article) : string :=
  if String.eqb (language article) "en"
  then q "<span class=`language-en`>English</span>"
  else q "<span class=`language-rw`>Kinyarwanda</span>".

Definition card_indicator (article : Article) : string :=
  if String.eqb (language article) "en" then "language-en-indicator" else "language-rw-indicator".

Definition card_image (article : Article) : string :=
  match url_to_image article with
  | None | Some EmptyString => placeholder_image
  | Some u => u
  end.

Definition card_description (article : Article) : string :=
  match description article with
  | None | Some EmptyString => ""
  | Some d => substring0 150 d ++ "..."
  end.

Definition card_html (t : Z) (article : Article) : string :=
  let languageBadge := card_badge article in
  q "
        <div class=`language-indicator " ++ card_indicator article ++ q "`>
            " ++ toUpperCase (language article) ++ q "
        </div>
        
        <img src=`" ++ card_image article ++ q "` 
             alt=`" ++ title article ++ q "` 
             class=`article-image`>
        
        <div class=`article-content`>
            <div class=`article-meta`>
                <span class=`article-category`>" ++ category_name article ++ q "</span>
                <span class=`article-source`>" ++ source article ++ q "</span>
                <span class=`article-time`>" ++ formatTimeAgo t (published_at article) ++ q "</span>
            </div>
            
            <h3 class=`article-title`>
                <a href=`" ++ FRONTEND_URL ++ "/article/" ++ article_id article ++ q "`>
                    " ++ title article ++ q "
                </a>
            </h3>
            
            <p class=`article-description`>
                " ++ card_description article ++ q "
            </p>
            
            <div class=`article-footer`>
                " ++ languageBadge ++ q "
                <a href=`" ++ FRONTEND_URL ++ "/article/" ++ article_id article ++ q "` class=`read-more`>
                    Read More <i class=`fas fa-arrow-right`></i>
                </a>
            </div>
        </div>
    ".

Definition createArticleCard (t : Z) (article : Article) : Element :=
  mkElement "article-card" (Some (language article)) (card_html t article) "" "" "".

(** *** Search (lines 116-180) *)

Definition result_badge (article : Article) : string :=
  if String.eqb (language article) "en"
  then q "<span class=`language-en`>EN</span>"
  else q "<span class=`language-rw`>RW</span>".

Definition result_description (article : Article) : string :=
  match description article with
  | None | Some EmptyString => ""
  | Some d => d
  end.

Definition result_item (t : Z) (article : Article) : string :=
  let languageBadge := result_badge article in
  q "
                                <div class=`search-result-item`>
                                    <div class=`search-result-content`>
                                        <h4>
                                            <a href=`" ++ FRONTEND_URL ++ "/article/" ++ article_id article ++ q "`>
                                                " ++ title article ++ "
                                            </a>
                                        </h4>
                                        <p>" ++ result_description article ++ q "</p>
                                        <div class=`search-result-meta`>
                                            " ++ languageBadge ++ q "
                                            <span class=`source`>" ++ source article ++ q "</span>
                                            <span class=`category`>" ++ category_name article ++ q "</span>
                                            <span class=`time`>" ++ formatTimeAgo t (published_at article) ++ "</span>
                                        </div>
                                    </div>
                                </div>
                            ".

Definition results_header (query : string) (n : nat) : string :=
  q "<h3>Search Results for `" ++ query ++ q "` (" ++ of_Z (Z.of_nat n) ++ ")</h3>".

Definition results_html (t : Z) (query : string) (l : list Article) : string :=
  fold_left (fun html article => html ++ result_item t article) l
            (results_header query (List.length l)).

Definition no_results_html (query : string) : string :=
  q "
                            <div class=`no-results`>
                                <i class=`fas fa-search`></i>
                                <h3>No results found for `" ++ query ++ q "`</h3>
                                <p>Try different keywords or browse by category.</p>
                            </div>
                        ".

(** The [submit] listener up to the request.  An empty query ends the
    handler; otherwise the query goes on to the continuation. *)
Definition search_submit (value : string) (p : Page) : Page * option string :=
  let query := trim value in
  if String.eqb query "" then (p, None)
  else (emit (Fetch "GET" (BACKEND_URL ++ "/api/v1/articles/?search="
                             ++ encodeURIComponent query ++ "&limit=50")) p,
        Some query).

(** The rest of the listener, from line 132, and its [catch]. *)
Definition search_response (query : string) (r : outcome Listing) (p : Page) : Page :=
  match r with
  | Resolved data =>
      match searchResults p with
      | Some _ =>
          match articles data with
          | Some (a :: l) =>
              set_searchResults (Some (mkBox (results_html (now p) query (a :: l)) "block")) p
          | _ =>
              set_searchResults (Some (mkBox (no_results_html query) "block")) p
          end
      | None => p
      end
  | _ =>
      showNotification "Error performing search. Please try again." (Some "error")
        (emit (ConsoleError "Search error:") p)
  end.

(** *** Fetch-now button (lines 249-281) *)

Definition fetching_label : string := q "<i class=`fas fa-spinner fa-spin`></i> Fetching...".

Definition refreshing_label (countdown : Z) : string :=
  q "<i class=`fas fa-sync-alt`></i> Refreshing in " ++ of_Z countdown ++ "s".

(** Up to the request; the result carries [originalText]. *)
Definition fetchNews_click (p : Page) : Page * string :=
  let this := fetchNewsBtn p in
  let originalText := btn_innerHTML this in
  let p := set_fetchNewsBtn (mkButton fetching_label true (btn_display this)) p in
  (emit (Fetch "POST" (BACKEND_URL ++ "/api/v1/fetcher/fetch-now")) p, originalText).

Definition fetchNews_response (originalText : string) (r : outcome json) (p : Page) : Page :=
  match r with
  | Resolved data =>
      let p := showNotification "Started fetching latest news! This may take a moment."
                 (Some "success") p in
      (* Update button to show progress *)
      emit (SetInterval 1000) (set_timers (timers p ++ [(now p + 1000, Countdown 30)]) p)
  | _ =>
      let p := emit (ConsoleError "Fetch error:") p in
      let this := fetchNewsBtn p in
      let p := set_fetchNewsBtn (mkButton originalText false (btn_display this)) p in
      showNotification "Error starting news fetch. Please try again." (Some "error") p
  end.

(** *** Load-more button (lines 287-332) *)

Definition loading_label : string := q "<i class=`fas fa-spinner fa-spin`></i> Loading...".

(** The locals of the listener that its continuation uses. *)
Record LoadMore := mkLoadMore {
  originalText : string;
  urlParams : URLSearchParams;
  currentPage : Z
}.

(** [parseInt(urlParams.get('page')) || 1], then [currentPage++].
    [get] answers [null] for an absent name, and [parseInt(null)] reads the
    text [null]. *)
Definition nextPage (urlParams : URLSearchParams) : Z :=
  let arg := match Params.get "page" urlParams with Some v => v | None => "null" end in
  let currentPage :=
    match parseInt arg with
    | None | Some 0 => 1
    | Some n => n
    end in
  currentPage + 1.

Definition loadMore_click (p : Page) : Page * LoadMore :=
  let this := loadMoreBtn p in
  let originalText := btn_innerHTML this in
  let p := set_loadMoreBtn (mkButton loading_label true (btn_display this)) p in
  let urlParams := search p in
  let currentPage := nextPage urlParams in
  (emit (Fetch "GET" (FRONTEND_URL ++ "/api/articles?page=" ++ of_Z currentPage)) p,
   mkLoadMore originalText urlParams currentPage).

Definition loadMore_catch (k : LoadMore) (p : Page) : Page :=
  let p := emit (ConsoleError "Load more error:") p in
  let p := set_loadMoreBtn (mkButton (originalText k) false (btn_display (loadMoreBtn p))) p in
  showNotification "Error loading more articles." (Some "error") p.

Definition hide_button (b : Button) : Button :=
  mkButton (btn_innerHTML b) (btn_disabled b) "none".

Definition restore_button (text : string) (b : Button) : Button :=
  mkButton text false (btn_display b).

(** Without an [.articles-grid] the first [appendChild] throws and the
    [catch] runs. *)
Definition loadMore_response (k : LoadMore) (r : outcome Listing) (p : Page) : Page :=
  match r with
  | Resolved data =>
      match articles data with
      | Some (a :: l) =>
          if articles_grid p then
            (* Add new articles to the grid *)
            let p := fold_left (fun p article => appendChild (createArticleCard (now p) article) p)
                               (a :: l) p in
            (* Update URL *)
            let p := pushState (Params.set "page" (of_Z (currentPage k)) (urlParams k)) p in
            (* Hide button if no more articles *)
            let p := if (Z.of_nat (List.length (a :: l)) <? 20)
                     then set_loadMoreBtn (hide_button (loadMoreBtn p)) p else p in
            set_loadMoreBtn (restore_button (originalText k) (loadMoreBtn p)) p
          else loadMore_catch k p
      | _ =>
          let p := set_loadMoreBtn (hide_button (loadMoreBtn p)) p in
          set_loadMoreBtn (restore_button (originalText k) (loadMoreBtn p)) p
      end
  | _ => loadMore_catch k p
  end.

(** *** Timers *)

(** What a timer does when it fires at [due]. *)
Definition fire (due : Z) (cb : callback) (p : Page) : Page :=
  match cb with
  | FadeIn card =>
      update card (style_transform "translateY(0)") (update card (style_opacity "1") p)
  | Hide card => update card (style_display "none") p
  | AutoRemove n =>
      match getElement n p with          (* [notification.parentElement] *)
      | Some _ => remove n p
      | None => p
      end
  | Countdown countdown =>
      let this := fetchNewsBtn p in
      let p := set_fetchNewsBtn
                 (mkButton (refreshing_label countdown) (btn_disabled this) (btn_display this)) p in
      let countdown := countdown - 1 in
      if countdown <? 0 then emit Reload (emit ClearInterval p)
      else set_timers (timers p ++ [(due + 1000, Countdown countdown)]) p
  end.

(** The timer that is due first; among equals, the one created first. *)
Fixpoint pick (ts : list (Z * callback)) : option ((Z * callback) * list (Z * callback)) :=
  match ts with
  | [] => None
  | t :: r =>
      match pick r with
      | None => Some (t, [])
      | Some (m, r') => if fst t <=? fst m then Some (t, r) else Some (m, t :: r')
      end
  end.

(** Let time pass until [deadline], firing what falls due; [None] when
    [fuel] firings were not enough. *)
Fixpoint run (fuel : nat) (deadline : Z) (p : Page) : option Page :=
  match pick (timers p) with
  | Some ((due, cb), rest) =>
      if due <=? deadline then
        match fuel with
        | O => None
        | S fuel' => run fuel' deadline (fire due cb (set_now (Z.max (now p) due) (set_timers rest p)))
        end
      else Some (set_now (Z.max (now p) deadline) p)
  | None => Some (set_now (Z.max (now p) deadline) p)
  end.

Definition wait (fuel : nat) (ms : Z) (p : Page) : option Page :=
  run fuel (now p + ms) p.

(** *** What can happen on the page *)

(** How many elements of the document match [.notification]. *)
Definition notifications (p : Page) : nat :=
  List.length (querySelectorAll "notification" p).

(** One event: a listener or its continuation runs, [showNotification] is
    called (it is exported on [window]), or the timer that is due first
    fires, the clock moving on to its time. *)
Inductive step : Page -> Page -> Prop :=
| step_initialize p :
    step p (initializeLanguageFilter p)
| step_languageFilter value p :
    step p (languageFilter_change value p)
| step_languageButton i p :
    step p (languageButton_click i p)
| step_search_submit value p :
    step p (fst (search_submit value p))
| step_search_response query r p :
    step p (search_response query r p)
| step_fetchNews_click p :
    step p (fst (fetchNews_click p))
| step_fetchNews_response text r p :
    step p (fetchNews_response text r p)
| step_loadMore_click p :
    step p (fst (loadMore_click p))
| step_loadMore_response k r p :
    step p (loadMore_response k r p)
| step_showNotification message type p :
    step p (showNotification message type p)
| step_notification_close n p :
    step p (notification_close n p)
| step_timer due cb rest p :
    pick (timers p) = Some ((due, cb), rest) ->
    step p (fire due cb (set_now (Z.max (now p) due) (set_timers rest p))).

Inductive steps : Page -> Page -> Prop :=
| steps_refl p : steps p p
| steps_next p p' p'' : steps p p' -> step p' p'' -> steps p p''.


(** The markup templates stay folded under [simpl] and [cbn]. *)
Arguments q : simpl never.
Arguments notification_html : simpl never.
Arguments card_html : simpl never.
Arguments result_item : simpl never.
Arguments results_header : simpl never.
Arguments no_results_html : simpl never.
Arguments refreshing_label : simpl never.
Arguments of_Z : simpl never.


(** *** Notions the statements use *)

(** The opening tag of a search result item, and the two badges. *)
Definition item_open : string := q "<div class=`search-result-item`>".
Definition badge_EN : string := q "<span class=`language-en`>EN</span>".
Definition badge_RW : string := q "<span class=`language-rw`>RW</span>".

(** An article none of whose fields opens a tag. *)
Definition plain_article (article : Article) : bool :=
  plain (article_id article) && plain (title article) && plain (result_description article)
  && plain (source article) && plain (category_name article).

(** How many articles a listing returned. *)
Definition returned (data : Listing) : nat :=
  match articles data with
  | Some l => List.length l
  | None => 0
  end.

(** A timer of the filter. *)
Definition is_style (cb : callback) : bool :=
  match cb with
  | FadeIn _ | Hide _ => true
  | _ => false
  end.

Definition hides (n : nat) (t : Z * callback) : bool :=
  match snd t with
  | Hide c => Nat.eqb c n
  | _ => false
  end.

(** The timer one turn of the loop creates for [card]. *)
Definition scheduled (sel : option string) (p : Page) (card : nat) : list (Z * callback) :=
  match getElement card p with
  | Some e =>
      [if selects sel (dataset_language e) then (now p + 10, FadeIn card)
       else (now p + 300, Hide card)]
  | None => []
  end.

(** The styles one turn of the loop sets on its card. *)
Definition restyle (sel : option string) (e : Element) : Element :=
  if selects sel (dataset_language e) then style_display "block" e
  else style_transform "translateY(20px)" (style_opacity "0" e).

(** ** Properties *)

(** *** Strings *)

Lemma append_assoc (a b c : string) : (a ++ b) ++ c = a ++ b ++ c.
Proof.
  induction a as [|x a IH]; simpl; [reflexivity | now rewrite IH].
Qed.

Lemma append_nil_r (a : string) : a ++ EmptyString = a.
Proof.
  induction a as [|x a IH]; simpl; [reflexivity | now rewrite IH].
Qed.

Lemma Contains_refl (n : string) : Contains n n.
Proof.
  exists EmptyString, EmptyString. simpl. now rewrite append_nil_r.
Qed.

Lemma Contains_here (n post : string) : Contains n (n ++ post).
Proof.
  exists EmptyString, post. reflexivity.
Qed.

Lemma Contains_skip (n a s : string) : Contains n s -> Contains n (a ++ s).
Proof.
  intros (pre & post & ->). exists (a ++ pre), post. now rewrite append_assoc.
Qed.

Lemma Contains_trans (a b c : string) : Contains a b -> Contains b c -> Contains a c.
Proof.
  intros (p1 & q1 & ->) (p2 & q2 & ->).
  exists (p2 ++ p1), (q1 ++ q2). now rewrite !append_assoc.
Qed.

(** Find a part of a concatenation. *)
Ltac find_part :=
  solve [ repeat first [ apply Contains_here | apply Contains_refl | apply Contains_skip ] ].

Lemma prefix_split (n h : string) :
  String.prefix n h = true -> exists post, h = n ++ post.
Proof.
  revert h. induction n as [|c n IH]; intros h H.
  - exists h. reflexivity.
  - destruct h as [|d h]; simpl in H; [discriminate|].
    destruct (Ascii.ascii_dec c d) as [->|]; [|discriminate].
    destruct (IH _ H) as (post & ->). exists post. reflexivity.
Qed.

Lemma containsb_sound (n h : string) : containsb n h = true -> Contains n h.
Proof.
  induction h as [|c h IH]; cbn [containsb]; intros H.
  - rewrite orb_false_r in H. destruct (prefix_split _ _ H) as (post & E).
    exists EmptyString, post. exact E.
  - apply orb_true_iff in H. destruct H as [H|H].
    + destruct (prefix_split _ _ H) as (post & E).
      exists EmptyString, post. exact E.
    + destruct (IH H) as (pre & post & ->).
      exists (String c pre), post. reflexivity.
Qed.

Lemma has_class_notification (type : string) :
  has_class "notification" ("notification " ++ type) = true.
Proof.
  unfold has_class, classList. cbn. reflexivity.
Qed.

Lemma has_class_card :
  has_class "notification" "article-card" = false.
Proof. reflexivity. Qed.

(** *** Relative time *)

Lemma formatTimeAgo_valid (t : Z) (dateString : string) (date : Z) :
  Date_parse dateString = Some date ->
  formatTimeAgo t dateString =
    let seconds := (t - date) / 1000 in
    if seconds <? 60 then "just now"
    else if seconds / 60 <? 60 then of_Z (seconds / 60) ++ "m ago"
    else if seconds / 60 / 60 <? 24 then of_Z (seconds / 60 / 60) ++ "h ago"
    else if seconds / 60 / 60 / 24 <? 7 then of_Z (seconds / 60 / 60 / 24) ++ "d ago"
    else toLocaleDateString date.
Proof.
  intros Hd. unfold formatTimeAgo. rewrite Hd. reflexivity.
Qed.

(** C5.  For a timestamp in the past, [formatTimeAgo] answers [just now]
    below 60 whole seconds, then the floored minutes below 60, the floored
    hours below 24, the floored days below 7, and the locale date from 7
    days on; 45 seconds give [just now], 90 seconds [1m ago] and 25 hours
    [1d ago]. *)
Theorem formatTimeAgo_thresholds (t : Z) (dateString : string) (date : Z) :
  Date_parse dateString = Some date ->
  date <= t ->
  let seconds := (t - date) / 1000 in
  let minutes := seconds / 60 in
  let hours := minutes / 60 in
  let days := hours / 24 in
  (seconds < 60 -> formatTimeAgo t dateString = "just now") /\
  (60 <= seconds -> minutes < 60 ->
     formatTimeAgo t dateString = of_Z minutes ++ "m ago") /\
  (60 <= minutes -> hours < 24 ->
     formatTimeAgo t dateString = of_Z hours ++ "h ago") /\
  (24 <= hours -> days < 7 ->
     formatTimeAgo t dateString = of_Z days ++ "d ago") /\
  (7 <= days -> formatTimeAgo t dateString = toLocaleDateString date) /\
  (t - date = 45 * 1000 -> formatTimeAgo t dateString = "just now") /\
  (t - date = 90 * 1000 -> formatTimeAgo t dateString = "1m ago") /\
  (t - date = 25 * 3600 * 1000 -> formatTimeAgo t dateString = "1d ago").
Proof.
  intros Hd Hpast seconds minutes hours days.
  rewrite (formatTimeAgo_valid t _ _ Hd). cbv zeta.
  fold seconds. fold minutes. fold hours. fold days.
  assert (Hs : 0 <= seconds) by (apply Z.div_pos; lia).
  assert (Hm : 0 <= minutes) by (apply Z.div_pos; lia).
  assert (Hh : 0 <= hours) by (apply Z.div_pos; lia).
  assert (Hsm : seconds < 60 -> minutes < 60).
  { intros H. unfold minutes. rewrite Z.div_small; lia. }
  assert (Hmh : minutes < 60 -> hours < 24).
  { intros H. unfold hours. rewrite Z.div_small; lia. }
  assert (Hhd : hours < 24 -> days < 7).
  { intros H. unfold days. rewrite Z.div_small; lia. }
  repeat split.
  - intros H. apply Z.ltb_lt in H. rewrite H. reflexivity.
  - intros H1 H2. apply Z.ltb_ge in H1. apply Z.ltb_lt in H2.
    rewrite H1, H2. reflexivity.
  - intros H1 H2.
    assert (G1 : (seconds <? 60) = false) by (apply Z.ltb_ge; lia).
    apply Z.ltb_ge in H1. apply Z.ltb_lt in H2. rewrite G1, H1, H2. reflexivity.
  - intros H1 H2.
    assert (G1 : (seconds <? 60) = false) by (apply Z.ltb_ge; lia).
    assert (G2 : (minutes <? 60) = false) by (apply Z.ltb_ge; lia).
    apply Z.ltb_ge in H1. apply Z.ltb_lt in H2. rewrite G1, G2, H1, H2. reflexivity.
  - intros H1.
    assert (G1 : (seconds <? 60) = false) by (apply Z.ltb_ge; lia).
    assert (G2 : (minutes <? 60) = false) by (apply Z.ltb_ge; lia).
    assert (G3 : (hours <? 24) = false) by (apply Z.ltb_ge; lia).
    apply Z.ltb_ge in H1. rewrite G1, G2, G3, H1. reflexivity.
  - intros H. unfold days, hours, minutes, seconds. rewrite H. reflexivity.
  - intros H. unfold days, hours, minutes, seconds. rewrite H. reflexivity.
  - intros H. unfold days, hours, minutes, seconds. rewrite H. reflexivity.
Qed.

(** *** Language badges *)

Lemma card_html_parts (t : Z) (article : Article) :
  Contains (card_indicator article) (card_html t article) /\
  Contains (card_badge article) (card_html t article) /\
  Contains (title article) (card_html t article).
Proof.
  unfold card_html. cbv zeta. repeat split; find_part.
Qed.

Lemma result_item_parts (t : Z) (article : Article) :
  Contains (result_badge article) (result_item t article) /\
  Contains (title article) (result_item t article).
Proof.
  unfold result_item. cbv zeta. split; find_part.
Qed.


(** *** Notifications: what one call does *)

Lemma filter_none {A : Type} (f : A -> bool) (l : list A) :
  filter f (filter (fun x => negb (f x)) l) = [].
Proof.
  induction l as [|x l IH]; simpl; [reflexivity|].
  destruct (f x) eqn:E; simpl; [exact IH | now rewrite E].
Qed.

Lemma showNotification_elements (message : string) (type : option string) (p : Page) :
  elements (showNotification message type p) =
    (filter (fun ne => negb (matches "notification" ne)) (elements p) ++
     [(fresh p,
       mkElement ("notification " ++ match type with Some t => t | None => "info" end) None
         (notification_html message (match type with Some t => t | None => "info" end))
         EmptyString EmptyString EmptyString)])%list.
Proof. reflexivity. Qed.

Lemma showNotification_query (message : string) (type : option string) (p : Page) :
  querySelectorAll "notification" (showNotification message type p) =
    [(fresh p,
      mkElement ("notification " ++ match type with Some t => t | None => "info" end) None
        (notification_html message (match type with Some t => t | None => "info" end))
        EmptyString EmptyString EmptyString)].
Proof.
  unfold querySelectorAll. rewrite showNotification_elements, filter_app, filter_none.
  cbn [filter app]. unfold matches at 1. cbn [snd className].
  now rewrite has_class_notification.
Qed.

Lemma showNotification_frame (message : string) (type : option string) (p : Page) :
  let p' := showNotification message type p in
  now p' = now p /\ fresh p' = S (fresh p) /\
  articleCards p' = articleCards p /\ languageButtons p' = languageButtons p /\
  articleCount p' = articleCount p /\ searchResults p' = searchResults p /\
  fetchNewsBtn p' = fetchNewsBtn p /\ loadMoreBtn p' = loadMoreBtn p /\
  articles_grid p' = articles_grid p /\ search p' = search p /\ history p' = history p /\
  timers p' = (timers p ++ [(now p + 5000, AutoRemove (fresh p))])%list /\
  effects p' = (effects p ++
    [Notify message (match type with Some t => t | None => "info" end); SetTimeout 5000])%list.
Proof.
  cbv zeta. unfold showNotification, setTimeout, emit, appendChild. cbn.
  rewrite <- app_assoc. repeat split; reflexivity.
Qed.

(** *** Search *)

Lemma fold_left_html (f : Article -> string) (l : list Article) (html : string) :
  fold_left (fun html article => html ++ f article) l html = html ++ join (map f l).
Proof.
  revert html. induction l as [|a l IH]; intros html; simpl.
  - now rewrite append_nil_r.
  - rewrite IH. apply append_assoc.
Qed.

Lemma result_item_open (t : Z) (article : Article) :
  Contains item_open (result_item t article).
Proof.
  unfold result_item. cbv zeta.
  eapply Contains_trans; [|apply Contains_here].
  apply containsb_sound. vm_compute. reflexivity.
Qed.

Lemma result_badge_cases (article : Article) :
  result_badge article = badge_EN \/ result_badge article = badge_RW.
Proof.
  unfold result_badge. destruct (String.eqb (language article) "en"); [left|right]; reflexivity.
Qed.

Lemma Contains_around (n0 n1 l0 l1 x : string) :
  l0 = String.substring 0 (String.length l0 - String.length n0) l0 ++ n0 ->
  String.prefix n1 l1 = true ->
  Contains (n0 ++ x ++ n1) (l0 ++ x ++ l1).
Proof.
  intros E0 H1. destruct (prefix_split _ _ H1) as (post & ->).
  rewrite E0. exists (String.substring 0 (String.length l0 - String.length n0) l0), post.
  now rewrite !append_assoc.
Qed.

Lemma no_results_names_query (query : string) :
  Contains (q "<h3>No results found for `" ++ query ++ q "`</h3>") (no_results_html query).
Proof.
  unfold no_results_html. apply Contains_around; vm_compute; reflexivity.
Qed.


Lemma search_submit_query (value query : string) (p0 p1 : Page) :
  search_submit value p0 = (p1, Some query) ->
  query = trim value /\ query <> EmptyString /\
  p1 = emit (Fetch "GET" (BACKEND_URL ++ "/api/v1/articles/?search="
                            ++ encodeURIComponent query ++ "&limit=50")) p0.
Proof.
  unfold search_submit. destruct (String.eqb (trim value) EmptyString) eqn:E; intros H.
  - discriminate.
  - apply String.eqb_neq in E. inversion H; subst. repeat split; auto.
Qed.

(** *** Counting the result items in the markup *)

Lemma prefix_app_closed (n u s : string) :
  ((String.length u <? String.length n)%nat && String.prefix u n) = false ->
  String.prefix n (u ++ s) = String.prefix n u.
Proof.
  revert u. induction n as [|a n IH]; intros u H.
  - destruct u; [destruct s|]; reflexivity.
  - destruct u as [|b u].
    + cbn in H. discriminate.
    + cbn [append String.prefix]. destruct (ascii_dec a b) as [->|Hab]; [|reflexivity].
      apply IH. cbn [String.length String.prefix] in H.
      destruct (ascii_dec b b) as [_|Hbb]; [|congruence].
      exact H.
Qed.

Lemma count_literal (needle l s : string) :
  needle <> EmptyString ->
  closed_for needle l = true ->
  count_occurrences needle (l ++ s) =
    (count_occurrences needle l + count_occurrences needle s)%nat.
Proof.
  intros Hne. induction l as [|c l IH]; intros H.
  - cbn [append count_occurrences]. destruct needle; [congruence|]. reflexivity.
  - cbn [closed_for] in H. apply andb_true_iff in H. destruct H as (H1 & H2).
    apply negb_true_iff in H1.
    change (String c l ++ s) with (String c (l ++ s)).
    cbn [count_occurrences].
    change (String c (l ++ s)) with (String c l ++ s).
    rewrite (prefix_app_closed _ _ _ H1), (IH H2). lia.
Qed.

Lemma count_plain (needle x s : string) :
  String.prefix "<" needle = true ->
  plain x = true ->
  count_occurrences needle (x ++ s) = count_occurrences needle s.
Proof.
  intros Hn. destruct needle as [|a needle]; [discriminate|].
  cbn [String.prefix] in Hn. destruct (ascii_dec "<" a) as [<-|]; [|discriminate Hn]. clear Hn.
  induction x as [|c x IH]; intros H; [reflexivity|].
  cbn [plain] in H. apply andb_true_iff in H. destruct H as (H1 & H2).
  change (String c x ++ s) with (String c (x ++ s)).
  cbn [count_occurrences String.prefix].
  destruct (ascii_dec "<" c) as [<-|_]; [cbn in H1; discriminate H1|].
  now rewrite (IH H2).
Qed.

Lemma plain_app (a b : string) : plain (a ++ b) = plain a && plain b.
Proof.
  induction a as [|c a IH]; [reflexivity|]. cbn [append plain]. rewrite IH.
  now rewrite andb_assoc.
Qed.

Lemma plain_uint (d : Decimal.uint) : plain (NilEmpty.string_of_uint d) = true.
Proof.
  induction d; cbn [NilEmpty.string_of_uint plain]; try exact IHd; reflexivity.
Qed.

Lemma plain_of_Z (z : Z) : plain (of_Z z) = true.
Proof.
  unfold of_Z, NilZero.string_of_int, NilZero.string_of_uint.
  destruct (Z.to_int z) as [d|d].
  - destruct d; try reflexivity; apply (plain_uint _).
  - cbn [plain]. destruct d; try reflexivity; apply (plain_uint _).
Qed.

Section Plain.

Hypothesis plain_date : forall date, plain (toLocaleDateString date) = true.

Lemma plain_formatTimeAgo (t : Z) (dateString : string) :
  plain (formatTimeAgo t dateString) = true.
Proof.
  unfold formatTimeAgo. destruct (Date_parse dateString) as [date|]; [|reflexivity].
  cbv zeta.
  repeat match goal with
         | |- context [if ?b then _ else _] => destruct b
         end;
    rewrite ?plain_app, ?plain_of_Z; auto.
Qed.

Lemma count_result_item (t : Z) (article : Article) (s : string) :
  plain_article article = true ->
  count_occurrences item_open (result_item t article ++ s) =
    S (count_occurrences item_open s).
Proof.
  unfold plain_article. intros H.
  repeat (apply andb_true_iff in H; destruct H as (H & ?)).
  assert (Hne : item_open <> EmptyString) by discriminate.
  assert (Hlt : String.prefix "<" item_open = true) by reflexivity.
  unfold result_item. cbv zeta. rewrite !append_assoc.
  repeat first
    [ rewrite (count_plain item_open (article_id article)) by assumption
    | rewrite (count_plain item_open (title article)) by assumption
    | rewrite (count_plain item_open (result_description article)) by assumption
    | rewrite (count_plain item_open (source article)) by assumption
    | rewrite (count_plain item_open (category_name article)) by assumption
    | rewrite (count_plain item_open (formatTimeAgo t (published_at article)))
        by (first [assumption | apply plain_formatTimeAgo])
    | rewrite (count_literal item_open) by (first [exact Hne | vm_compute; reflexivity]) ].
  destruct (result_badge_cases article) as [-> | ->];
    rewrite (count_literal item_open) by (first [exact Hne | vm_compute; reflexivity]);
    repeat first
      [ rewrite (count_plain item_open (source article)) by assumption
      | rewrite (count_plain item_open (category_name article)) by assumption
      | rewrite (count_plain item_open (formatTimeAgo t (published_at article)))
          by (first [assumption | apply plain_formatTimeAgo])
      | rewrite (count_literal item_open) by (first [exact Hne | vm_compute; reflexivity]) ];
    generalize (count_occurrences item_open s); intros k; vm_compute; reflexivity.
Qed.

(** When neither the query nor a field of an article opens a tag, the
    opening tag of a result item occurs in the markup once per article. *)
Lemma count_results_html (t : Z) (query : string) (l : list Article) :
  plain query = true ->
  forallb plain_article l = true ->
  count_occurrences item_open (results_html t query l) = List.length l.
Proof.
  intros Hq Hl. unfold results_html. rewrite fold_left_html.
  assert (Hne : item_open <> EmptyString) by discriminate.
  generalize (List.length l) at 1. intros n.
  unfold results_header. rewrite !append_assoc.
  rewrite (count_literal item_open) by (first [exact Hne | vm_compute; reflexivity]).
  rewrite (count_plain item_open query) by (first [reflexivity | assumption]).
  rewrite (count_literal item_open) by (first [exact Hne | vm_compute; reflexivity]).
  rewrite (count_plain item_open (of_Z (Z.of_nat n))) by (first [reflexivity | apply plain_of_Z]).
  rewrite (count_literal item_open) by (first [exact Hne | vm_compute; reflexivity]).
  assert (J : count_occurrences item_open (join (map (result_item t) l)) = List.length l).
  { induction l as [|a l IH]; [reflexivity|].
    cbn [forallb] in Hl. apply andb_true_iff in Hl. destruct Hl as (Ha & Hl).
    cbn [map join fold_right]. rewrite (count_result_item t a _ Ha).
    cbn [List.length]. f_equal. apply IH, Hl. }
  rewrite J. generalize (List.length l). intros k. vm_compute. reflexivity.
Qed.

End Plain.


(** C9.  When the request of a search fails, at the network or at the
    parsing of the body, the handler logs the error and shows an error
    notification that a timer removes after 5000 ms.  The results container
    keeps the content and the visibility it had: the submission does not
    touch it, and neither does the failure, on whatever page it arrives. *)
Theorem search_failure_keeps_results
    (value query : string) (r : outcome Listing) (p0 p1 p : Page) :
  search_submit value p0 = (p1, Some query) ->
  r = NetworkError \/ r = ParseError ->
  let p' := search_response query r p in
  searchResults p1 = searchResults p0 /\
  searchResults p' = searchResults p /\
  effects p' =
    (effects p ++ [ConsoleError "Search error:";
                   Notify "Error performing search. Please try again." "error";
                   SetTimeout 5000])%list /\
  querySelectorAll "notification" p' =
    [(fresh p, mkElement "notification error" None
                 (notification_html "Error performing search. Please try again." "error")
                 EmptyString EmptyString EmptyString)] /\
  timers p' = (timers p ++ [(now p + 5000, AutoRemove (fresh p))])%list.
Proof.
  intros Hsub Hr p'.
  destruct (search_submit_query _ _ _ _ Hsub) as (_ & _ & Hp1).
  split; [rewrite Hp1; reflexivity|].
  assert (E : p' = showNotification "Error performing search. Please try again." (Some "error")
                     (emit (ConsoleError "Search error:") p))
    by (subst p'; destruct Hr as [-> | ->]; reflexivity).
  rewrite E.
  pose proof (showNotification_frame "Error performing search. Please try again." (Some "error")
                (emit (ConsoleError "Search error:") p)) as F.
  cbv zeta in F. destruct F as (_ & _ & _ & _ & _ & Fs & _ & _ & _ & _ & _ & Ft & Fe).
  split; [|split; [|split]].
  - rewrite Fs. reflexivity.
  - rewrite Fe. unfold emit. cbn. now rewrite <- app_assoc.
  - rewrite showNotification_query. reflexivity.
  - rewrite Ft. reflexivity.
Qed.

(** *** Notifications: at most one *)

Lemma notifications_elements (p p' : Page) :
  elements p' = elements p -> notifications p' = notifications p.
Proof.
  intros E. unfold notifications, querySelectorAll. now rewrite E.
Qed.

Lemma notifications_update (n : nat) (f : Element -> Element) (p : Page) :
  (forall e, className (f e) = className e) ->
  notifications (update n f p) = notifications p.
Proof.
  intros Hf. unfold notifications, querySelectorAll, update. cbn [elements set_elements].
  induction (elements p) as [|ne l IH]; [reflexivity|].
  cbn [map filter].
  assert (E : matches "notification" (if Nat.eqb (fst ne) n then (fst ne, f (snd ne)) else ne)
              = matches "notification" ne).
  { destruct (Nat.eqb (fst ne) n); [|reflexivity]. unfold matches. cbn [snd]. now rewrite Hf. }
  rewrite E. destruct (matches "notification" ne); cbn [List.length]; now rewrite IH.
Qed.

Lemma notifications_remove (n : nat) (p : Page) :
  (notifications (remove n p) <= notifications p)%nat.
Proof.
  unfold notifications, querySelectorAll, remove. cbn [elements set_elements].
  induction (elements p) as [|ne l IH]; [apply Nat.le_refl|].
  cbn [filter]. destruct (negb (Nat.eqb (fst ne) n)); cbn [filter];
    destruct (matches "notification" ne); cbn [List.length]; lia.
Qed.

Lemma notifications_appendChild (e : Element) (p : Page) :
  has_class "notification" (className e) = false ->
  notifications (appendChild e p) = notifications p.
Proof.
  intros H. unfold notifications, querySelectorAll, appendChild. cbn [elements set_elements set_fresh].
  rewrite filter_app. cbn [filter]. unfold matches at 2. cbn [snd]. rewrite H.
  now rewrite app_nil_r.
Qed.

Lemma notifications_show (message : string) (type : option string) (p : Page) :
  notifications (showNotification message type p) = 1%nat.
Proof.
  unfold notifications. now rewrite showNotification_query.
Qed.

Lemma notifications_filterCard (sel : option string) (p : Page) (card : nat) :
  notifications (filterCard sel p card) = notifications p.
Proof.
  unfold filterCard. destruct (getElement card p); [|reflexivity].
  destruct (selects sel (dataset_language e)).
  - rewrite <- (notifications_update card (style_display "block") p) by reflexivity.
    apply notifications_elements. reflexivity.
  - rewrite <- (notifications_update card (style_opacity "0") p) by reflexivity.
    rewrite <- (notifications_update card (style_transform "translateY(20px)")
                  (update card (style_opacity "0") p)) by reflexivity.
    apply notifications_elements. reflexivity.
Qed.

Lemma notifications_filterCards (sel : option string) (p : Page) :
  notifications (filterCards sel p) = notifications p.
Proof.
  unfold filterCards. generalize (articleCards p). intros l. revert p.
  induction l as [|c l IH]; intros p; cbn [fold_left]; [reflexivity|].
  now rewrite IH, notifications_filterCard.
Qed.

Lemma notifications_append_cards (l : list Article) (p : Page) :
  notifications
    (fold_left (fun p article => appendChild (createArticleCard (now p) article) p) l p)
  = notifications p.
Proof.
  revert p. induction l as [|a l IH]; intros p; cbn [fold_left]; [reflexivity|].
  rewrite IH. apply notifications_appendChild. exact has_class_card.
Qed.

Lemma notifications_fire (due : Z) (cb : callback) (p : Page) :
  (notifications (fire due cb p) <= notifications p)%nat.
Proof.
  destruct cb as [card|card|n|countdown]; cbn [fire].
  - rewrite !notifications_update by reflexivity. apply Nat.le_refl.
  - rewrite notifications_update by reflexivity. apply Nat.le_refl.
  - destruct (getElement n p); [apply notifications_remove | apply Nat.le_refl].
  - destruct (countdown - 1 <? 0); apply Nat.eq_le_incl, notifications_elements; reflexivity.
Qed.

Lemma notifications_step (p p' : Page) :
  step p p' -> (notifications p' <= 1 \/ notifications p' <= notifications p)%nat.
Proof.
  intros H. destruct H.
  - right. apply Nat.eq_le_incl, notifications_elements. reflexivity.
  - right. apply Nat.eq_le_incl. unfold languageFilter_change. cbv zeta.
    rewrite <- (notifications_filterCards (Some value) p).
    apply notifications_elements. reflexivity.
  - right. apply Nat.eq_le_incl. unfold languageButton_click.
    destruct (nth_error (languageButtons p) i) as [this|]; [|reflexivity]. cbv zeta.
    match goal with |- notifications (updateArticleCount _ ?x) = _ =>
      transitivity (notifications x) end.
    + apply notifications_elements. unfold updateArticleCount. cbv zeta.
      destruct (articleCount _); reflexivity.
    + rewrite notifications_filterCards. apply notifications_elements. reflexivity.
  - right. apply Nat.eq_le_incl, notifications_elements. unfold search_submit. cbv zeta.
    destruct (String.eqb (trim value) EmptyString); reflexivity.
  - unfold search_response.
    destruct r as [| |data]; try (left; rewrite notifications_show; apply Nat.le_refl).
    right. apply Nat.eq_le_incl, notifications_elements.
    destruct (searchResults p); [|reflexivity].
    destruct (articles data) as [[|a l]|]; reflexivity.
  - right. apply Nat.eq_le_incl, notifications_elements. reflexivity.
  - left. unfold fetchNews_response. destruct r as [| |data].
    + rewrite notifications_show. apply Nat.le_refl.
    + rewrite notifications_show. apply Nat.le_refl.
    + cbv zeta. apply Nat.eq_le_incl.
      transitivity (notifications
                      (showNotification "Started fetching latest news! This may take a moment."
                         (Some "success") p)).
      * apply notifications_elements. reflexivity.
      * apply notifications_show.
  - right. apply Nat.eq_le_incl, notifications_elements. reflexivity.
  - assert (Hc : (notifications (loadMore_catch k p) <= 1)%nat).
    { unfold loadMore_catch. cbv zeta. rewrite notifications_show. apply Nat.le_refl. }
    unfold loadMore_response. destruct r as [| |data]; [left; exact Hc | left; exact Hc |].
    destruct (articles data) as [[|a l]|].
    + right. apply Nat.eq_le_incl, notifications_elements. reflexivity.
    + destruct (articles_grid p); [|left; exact Hc].
      right. apply Nat.eq_le_incl. cbv zeta.
      rewrite <- (notifications_append_cards (a :: l) p).
      apply notifications_elements.
      destruct (Z.of_nat (List.length (a :: l)) <? 20); reflexivity.
    + right. apply Nat.eq_le_incl, notifications_elements. reflexivity.
  - left. rewrite notifications_show. apply Nat.le_refl.
  - right. apply notifications_remove.
  - right. etransitivity; [apply notifications_fire|].
    apply Nat.eq_le_incl, notifications_elements. reflexivity.
Qed.

Lemma notifications_steps (p p' : Page) :
  steps p p' -> (notifications p <= 1)%nat -> (notifications p' <= 1)%nat.
Proof.
  induction 1 as [|p p' p'' _ IH Hs]; intros H0; [exact H0|].
  destruct (notifications_step _ _ Hs) as [H|H]; [exact H|].
  specialize (IH H0). lia.
Qed.


(** *** Fetch-now *)


(** What one tick of the countdown does (lines 265-273). *)
Lemma countdown_tick (due countdown : Z) (p : Page) :
  let p' := fire due (Countdown countdown) p in
  btn_innerHTML (fetchNewsBtn p') = refreshing_label countdown /\
  (0 < countdown ->
     timers p' = (timers p ++ [(due + 1000, Countdown (countdown - 1))])%list /\
     effects p' = effects p) /\
  (countdown <= 0 ->
     timers p' = timers p /\ effects p' = (effects p ++ [ClearInterval; Reload])%list).
Proof.
  cbv zeta. cbn [fire]. split; [|split].
  - destruct (countdown - 1 <? 0); reflexivity.
  - intros H. assert (E : (countdown - 1 <? 0) = false) by (apply Z.ltb_ge; lia).
    rewrite E. split; reflexivity.
  - intros H. assert (E : (countdown - 1 <? 0) = true) by (apply Z.ltb_lt; lia).
    rewrite E. unfold emit. cbn. rewrite <- app_assoc. split; reflexivity.
Qed.

(** *** URLSearchParams *)

Lemma get_delete (name : string) (ps : URLSearchParams) :
  Params.get name (Params.delete name ps) = None.
Proof.
  unfold Params.get, Params.delete.
  induction ps as [|kv ps IH]; [reflexivity|].
  cbn [filter]. destruct (String.eqb (fst kv) name) eqn:E; cbn [negb]; [exact IH|].
  cbn [find]. rewrite E. exact IH.
Qed.

Lemma get_set (name value : string) (ps : URLSearchParams) :
  Params.get name (Params.set name value ps) = Some value.
Proof.
  unfold Params.get.
  induction ps as [|kv ps IH]; cbn [Params.set find fst snd].
  - now rewrite String.eqb_refl.
  - destruct (String.eqb (fst kv) name) eqn:E; cbn [find fst snd].
    + now rewrite String.eqb_refl.
    + rewrite E. exact IH.
Qed.

Lemma get_delete_other (name other : string) (ps : URLSearchParams) :
  other <> name -> Params.get other (Params.delete name ps) = Params.get other ps.
Proof.
  intros Hne. unfold Params.get, Params.delete.
  induction ps as [|kv ps IH]; [reflexivity|].
  cbn [filter find]. destruct (String.eqb (fst kv) name) eqn:E; cbn [negb].
  - apply String.eqb_eq in E.
    assert (F : String.eqb (fst kv) other = false) by (apply String.eqb_neq; congruence).
    rewrite F. exact IH.
  - cbn [find]. destruct (String.eqb (fst kv) other); [reflexivity | exact IH].
Qed.

Lemma get_set_other (name value other : string) (ps : URLSearchParams) :
  other <> name -> Params.get other (Params.set name value ps) = Params.get other ps.
Proof.
  intros Hne. unfold Params.get.
  assert (F : String.eqb name other = false) by (apply String.eqb_neq; congruence).
  induction ps as [|kv ps IH]; cbn [Params.set find fst snd].
  - now rewrite F.
  - destruct (String.eqb (fst kv) name) eqn:E; cbn [find fst snd].
    + apply String.eqb_eq in E. rewrite E, F.
      apply (get_delete_other name other ps Hne).
    + destruct (String.eqb (fst kv) other); [reflexivity | exact IH].
Qed.

(** *** Load more *)

Lemma nextPage_cases (ps : URLSearchParams) :
  match Params.get "page" ps with
  | None => nextPage ps = 2
  | Some v =>
      match parseInt v with
      | None => nextPage ps = 2
      | Some n => nextPage ps = if n =? 0 then 2 else n + 1
      end
  end.
Proof.
  unfold nextPage. destruct (Params.get "page" ps) as [v|].
  - destruct (parseInt v) as [n|]; [|reflexivity].
    destruct n; reflexivity.
  - reflexivity.
Qed.

Lemma append_cards_frame (l : list Article) (p : Page) :
  let p' := fold_left (fun p article => appendChild (createArticleCard (now p) article) p) l p in
  now p' = now p /\ articleCards p' = articleCards p /\ loadMoreBtn p' = loadMoreBtn p /\
  search p' = search p /\ history p' = history p /\ timers p' = timers p /\
  effects p' = effects p /\
  elements p' =
    (elements p ++
     combine (seq (fresh p) (List.length l)) (map (createArticleCard (now p)) l))%list.
Proof.
  cbv zeta. revert p. induction l as [|a l IH]; intros p; cbn [fold_left].
  - cbn. rewrite app_nil_r. repeat split; reflexivity.
  - destruct (IH (appendChild (createArticleCard (now p) a) p))
      as (H1 & H2 & H3 & H4 & H5 & H6 & H7 & H8).
    rewrite H1, H2, H3, H4, H5, H6, H7, H8.
    split; [reflexivity|]. split; [reflexivity|]. split; [reflexivity|].
    split; [reflexivity|]. split; [reflexivity|]. split; [reflexivity|].
    split; [reflexivity|].
    unfold appendChild. cbn [elements set_elements set_fresh fresh now List.length seq map combine].
    now rewrite <- app_assoc.
Qed.

Lemma loadMore_response_display (k : LoadMore) (data : Listing) (p : Page) :
  returned data = 0%nat \/ articles_grid p = true ->
  btn_display (loadMoreBtn (loadMore_response k (Resolved data) p)) =
    if Z.of_nat (returned data) <? 20 then "none" else btn_display (loadMoreBtn p).
Proof.
  intros H. unfold loadMore_response, returned in *.
  destruct (articles data) as [[|a l]|]; [reflexivity| |reflexivity].
  destruct H as [H|H]; [discriminate|]. rewrite H. cbv zeta.
  destruct (append_cards_frame (a :: l) p) as (_ & _ & Hb & _). cbv zeta in Hb.
  destruct (Z.of_nat (List.length (a :: l)) <? 20);
    cbn [loadMoreBtn set_loadMoreBtn pushState emit set_effects set_search set_history
         restore_button hide_button btn_display];
    [reflexivity | now rewrite Hb].
Qed.


(** *** Language filter: the URL *)

Lemma filterCard_frame (sel : option string) (p : Page) (card : nat) :
  let p' := filterCard sel p card in
  search p' = search p /\ history p' = history p /\ now p' = now p /\
  articleCards p' = articleCards p /\
  exists delay, (effects p' = effects p \/ effects p' = effects p ++ [SetTimeout delay])%list.
Proof.
  cbv zeta. unfold filterCard. destruct (getElement card p) as [e|].
  - destruct (selects sel (dataset_language e));
      (split; [reflexivity|]); (split; [reflexivity|]); (split; [reflexivity|]);
      (split; [reflexivity|]); eexists; right; reflexivity.
  - repeat split. exists 0. left. reflexivity.
Qed.

Lemma filterCard_fold_frame (sel : option string) (l : list nat) (p : Page) :
  let p' := fold_left (filterCard sel) l p in
  search p' = search p /\ history p' = history p /\ now p' = now p /\
  articleCards p' = articleCards p /\
  exists delays, effects p' = (effects p ++ map SetTimeout delays)%list.
Proof.
  cbv zeta. revert p.
  induction l as [|c l IH]; intros p; cbn [fold_left].
  - repeat split. exists []. cbn. now rewrite app_nil_r.
  - destruct (IH (filterCard sel p c)) as (H1 & H2 & H3 & H4 & ds & H5).
    destruct (filterCard_frame sel p c) as (G1 & G2 & G3 & G4 & d & G5).
    rewrite H1, H2, H3, H4, H5, G1, G2, G3, G4.
    split; [reflexivity|]. split; [reflexivity|]. split; [reflexivity|]. split; [reflexivity|].
    destruct G5 as [-> | ->].
    + exists ds. reflexivity.
    + exists (d :: ds). rewrite <- app_assoc. reflexivity.
Qed.

Lemma filterCards_frame (sel : option string) (p : Page) :
  let p' := filterCards sel p in
  search p' = search p /\ history p' = history p /\ now p' = now p /\
  articleCards p' = articleCards p /\
  exists delays, effects p' = (effects p ++ map SetTimeout delays)%list.
Proof.
  apply filterCard_fold_frame.
Qed.

(** C3, as the code has it.  After a selection made through the dropdown,
    the [language] parameter of the URL is absent when the selection is
    [all] and holds the selected code otherwise; the other parameters are
    kept.  The new URL is pushed as a history entry on top of the previous
    one, and the page is not reloaded. *)
Theorem languageFilter_change_pushes_url (value : string) (p : Page) :
  let p' := languageFilter_change value p in
  Params.get "language" (search p') = (if String.eqb value "all" then None else Some value) /\
  (forall name, name <> "language" -> Params.get name (search p') = Params.get name (search p)) /\
  history p' = (history p ++ [search p])%list /\
  (exists delays,
     effects p' = (effects p ++ map SetTimeout delays ++ [PushState (search p')])%list) /\
  (In Reload (effects p') -> In Reload (effects p)).
Proof.
  intros p'. destruct (filterCards_frame (Some value) p) as (Hs & Hh & _ & _ & ds & He).
  cbv zeta in Hs, Hh, He.
  assert (Es : search p' =
               if String.eqb value "all" then Params.delete "language" (search p)
               else Params.set "language" value (search p)).
  { subst p'. unfold languageFilter_change. cbv zeta. unfold pushState, emit.
    cbn [search set_effects set_search set_history]. now rewrite Hs. }
  assert (Ee : effects p' = (effects p ++ map SetTimeout ds ++ [PushState (search p')])%list).
  { rewrite Es. subst p'. unfold languageFilter_change. cbv zeta. unfold pushState, emit.
    cbn [effects set_effects set_search set_history]. rewrite He, Hs.
    now rewrite <- app_assoc. }
  split; [|split; [|split; [|split]]].
  - rewrite Es. destruct (String.eqb value "all"); [apply get_delete | apply get_set].
  - intros name Hn. rewrite Es.
    destruct (String.eqb value "all"); [now apply get_delete_other | now apply get_set_other].
  - subst p'. unfold languageFilter_change. cbv zeta. unfold pushState, emit.
    cbn [history set_effects set_search set_history]. now rewrite Hh, Hs.
  - exists ds. exact Ee.
  - rewrite Ee. intros H. apply in_app_or in H. destruct H as [H|H]; [exact H|].
    apply in_app_or in H. destruct H as [H|H].
    + apply in_map_iff in H. destruct H as (d & Hd & _). discriminate.
    + destruct H as [H|[]]. discriminate.
Qed.

(** *** Article cards and the clock *)

Lemma append_cancel_l (a x y : string) : a ++ x = a ++ y -> x = y.
Proof.
  induction a as [|c a IH]; simpl; intros H; [exact H|].
  inversion H. auto.
Qed.

Lemma length_append (a b : string) :
  String.length (a ++ b) = (String.length a + String.length b)%nat.
Proof.
  induction a as [|c a IH]; simpl; [reflexivity | now rewrite IH].
Qed.

Lemma append_cancel_r (x y s : string) : x ++ s = y ++ s -> x = y.
Proof.
  revert y. induction x as [|c x IH]; intros y H.
  - destruct y as [|d y]; [reflexivity|].
    apply (f_equal String.length) in H. simpl in H. rewrite length_append in H. lia.
  - destruct y as [|d y].
    + apply (f_equal String.length) in H. simpl in H. rewrite length_append in H. lia.
    + simpl in H. inversion H. f_equal. auto.
Qed.

(** C6, as the code has it.  [createArticleCard] reads the clock, through
    [formatTimeAgo]: two calls on the same article give the same fragment
    exactly when the relative-time labels of its timestamp at the two
    instants are the same, so always at one instant.  Nothing else of the
    page enters: the cards that load-more appends are the cards of the
    articles at the clock of the page. *)
Theorem createArticleCard_same_label_same_card (t1 t2 : Z) (article : Article) :
  (formatTimeAgo t1 (published_at article) = formatTimeAgo t2 (published_at article) <->
   createArticleCard t1 article = createArticleCard t2 article) /\
  (forall l p,
     elements (fold_left (fun p article => appendChild (createArticleCard (now p) article) p) l p)
     = (elements p ++
        combine (seq (fresh p) (List.length l)) (map (createArticleCard (now p)) l))%list).
Proof.
  split; [split|].
  - intros H. unfold createArticleCard, card_html. cbv zeta. now rewrite H.
  - intros H. apply (f_equal innerHTML) in H. unfold createArticleCard in H.
    cbn [innerHTML] in H. unfold card_html in H. cbv zeta in H.
    repeat (apply append_cancel_l in H).
    first [ exact H | apply append_cancel_r in H; exact H ].
  - intros l p. apply (append_cards_frame l p).
Qed.

(** *** Language filter: the cards of the captured list *)

Lemma getElement_update (n m : nat) (f : Element -> Element) (p : Page) :
  getElement n (update m f p) =
    match getElement n p with
    | Some e => Some (if Nat.eqb n m then f e else e)
    | None => None
    end.
Proof.
  unfold getElement, update. cbn [elements set_elements].
  induction (elements p) as [|ne l IH]; [reflexivity|].
  cbn [map find].
  destruct (Nat.eqb (fst ne) m) eqn:Em; cbn [fst snd].
  - destruct (Nat.eqb (fst ne) n) eqn:En.
    + apply Nat.eqb_eq in Em, En. subst. now rewrite Nat.eqb_refl.
    + exact IH.
  - destruct (Nat.eqb (fst ne) n) eqn:En.
    + apply Nat.eqb_eq in En. subst. now rewrite Em.
    + exact IH.
Qed.

Lemma pick_spec (ts : list (Z * callback)) :
  match pick ts with
  | None => ts = []
  | Some (t, rest) =>
      In t ts /\ List.length ts = S (List.length rest) /\
      (forall x, In x rest -> In x ts) /\
      (forall f, existsb f ts = f t || existsb f rest)
  end.
Proof.
  induction ts as [|t r IH]; [reflexivity|].
  cbn [pick]. destruct (pick r) as [[m r']|].
  - destruct IH as (Hin & Hlen & Hsub & Hex).
    destruct (fst t <=? fst m).
    + split; [now left|]. split; [reflexivity|]. split; [intros x Hx; now right|].
      intros f. reflexivity.
    + split; [now right|]. split; [cbn [List.length]; now rewrite Hlen|].
      split.
      * intros x [->|Hx]; [now left | right; now apply Hsub].
      * intros f. cbn [existsb]. rewrite Hex.
        destruct (f t), (f m); reflexivity.
  - subst r. split; [now left|]. split; [reflexivity|]. split; [intros x []|].
    intros f. reflexivity.
Qed.

Lemma fire_style (due : Z) (cb : callback) (p : Page) :
  is_style cb = true ->
  timers (fire due cb p) = timers p /\
  forall n, getElement n (fire due cb p) =
    match getElement n p with
    | Some e =>
        Some (mkElement (className e) (dataset_language e) (innerHTML e)
                (if hides n (due, cb) then "none" else display e)
                (opacity (match getElement n (fire due cb p) with Some e' => e' | None => e end))
                (transform (match getElement n (fire due cb p) with Some e' => e' | None => e end)))
    | None => None
    end.
Proof.
  destruct cb as [c|c| |]; try discriminate; intros _; cbn [fire]; (split; [reflexivity|]); intros n.
  - rewrite !getElement_update. destruct (getElement n p) as [e|]; [|reflexivity].
    unfold hides. cbn [snd]. destruct (Nat.eqb n c); destruct e; reflexivity.
  - rewrite !getElement_update. destruct (getElement n p) as [e|]; [|reflexivity].
    unfold hides. cbn [snd]. rewrite (Nat.eqb_sym c n).
    destruct (Nat.eqb n c); destruct e; reflexivity.
Qed.

(** Running a queue that holds only timers of the filter, all due by the
    deadline: every one of them fires, and a card ends hidden exactly when
    a [Hide] for it was in the queue. *)
Lemma run_styles (fuel : nat) (deadline : Z) (p : Page) :
  (forall t, In t (timers p) -> fst t <= deadline /\ is_style (snd t) = true) ->
  (List.length (timers p) <= fuel)%nat ->
  exists p',
    run fuel deadline p = Some p' /\ timers p' = [] /\
    forall n e, getElement n p = Some e ->
      exists e', getElement n p' = Some e' /\
        dataset_language e' = dataset_language e /\
        display e' = if existsb (hides n) (timers p) then "none" else display e.
Proof.
  revert p. induction fuel as [|fuel IH]; intros p Hall Hlen.
  - destruct (timers p) as [|t ts] eqn:E; [|cbn in Hlen; lia].
    exists (set_now (Z.max (now p) deadline) p). cbn [run]. rewrite E. cbn [pick].
    split; [reflexivity|]. split; [exact E|].
    intros n e He. exists e. cbn [existsb]. repeat split. exact He.
  - cbn [run]. pose proof (pick_spec (timers p)) as P.
    destruct (pick (timers p)) as [[[due cb] rest]|].
    + destruct P as (Hin & Hl & Hsub & Hex).
      destruct (Hall _ Hin) as (Hdue & Hst). cbn [fst snd] in Hdue, Hst.
      assert (Ed : (due <=? deadline) = true) by (apply Z.leb_le; exact Hdue).
      rewrite Ed.
      set (p0 := set_now (Z.max (now p) due) (set_timers rest p)).
      destruct (fire_style due cb p0 Hst) as (Ft & Fe).
      destruct (IH (fire due cb p0)) as (p' & Hrun & Hts & Hel).
      * intros t Ht. rewrite Ft in Ht. apply Hall, Hsub, Ht.
      * rewrite Ft. cbn [p0 timers set_now set_timers]. lia.
      * exists p'. split; [exact Hrun|]. split; [exact Hts|].
        intros n e He. specialize (Fe n).
        assert (He0 : getElement n p0 = Some e) by exact He.
        rewrite He0 in Fe.
        destruct (Hel n _ Fe) as (e' & He' & Hlang & Hdisp).
        exists e'. split; [exact He'|]. split; [exact Hlang|].
        rewrite Hdisp, Ft, Hex. cbn [display p0 timers set_now set_timers].
        destruct (existsb (hides n) rest); [now rewrite orb_true_r|].
        rewrite orb_false_r. reflexivity.
    + exists (set_now (Z.max (now p) deadline) p). rewrite P.
      split; [reflexivity|]. split; [exact P|].
      intros n e He. exists e. cbn [existsb]. repeat split. exact He.
Qed.

Lemma filterCard_spec (sel : option string) (p : Page) (card : nat) :
  now (filterCard sel p card) = now p /\
  timers (filterCard sel p card) = (timers p ++ scheduled sel p card)%list /\
  forall n, getElement n (filterCard sel p card) =
    match getElement n p with
    | Some e => Some (if Nat.eqb n card then restyle sel e else e)
    | None => None
    end.
Proof.
  unfold filterCard, scheduled. destruct (getElement card p) as [ec|] eqn:Ec.
  - destruct (selects sel (dataset_language ec)) eqn:Es;
      (split; [reflexivity|]); (split; [reflexivity|]); intros n.
    + transitivity (getElement n (update card (style_display "block") p)); [reflexivity|].
      rewrite getElement_update. destruct (getElement n p) as [e|] eqn:He; [|reflexivity].
      destruct (Nat.eqb n card) eqn:En; [|reflexivity].
      apply Nat.eqb_eq in En. subst n. rewrite He in Ec. inversion Ec; subst ec.
      unfold restyle. now rewrite Es.
    + transitivity (getElement n (update card (style_transform "translateY(20px)")
                                    (update card (style_opacity "0") p))); [reflexivity|].
      rewrite !getElement_update. destruct (getElement n p) as [e|] eqn:He; [|reflexivity].
      destruct (Nat.eqb n card) eqn:En; [|reflexivity].
      apply Nat.eqb_eq in En. subst n. rewrite He in Ec. inversion Ec; subst ec.
      unfold restyle. now rewrite Es.
  - split; [reflexivity|]. split; [now rewrite app_nil_r|].
    intros n. destruct (getElement n p) as [e|] eqn:He; [|reflexivity].
    destruct (Nat.eqb n card) eqn:En; [|reflexivity].
    apply Nat.eqb_eq in En. congruence.
Qed.

Lemma restyle_language (sel : option string) (e : Element) :
  dataset_language (restyle sel e) = dataset_language e.
Proof.
  unfold restyle. destruct (selects sel (dataset_language e)); reflexivity.
Qed.

Lemma restyle_display (sel : option string) (e : Element) :
  display (restyle sel e) = if selects sel (dataset_language e) then "block" else display e.
Proof.
  unfold restyle. destruct (selects sel (dataset_language e)); reflexivity.
Qed.

Lemma scheduled_stable (sel : option string) (p p1 : Page) (c : nat) :
  now p1 = now p ->
  (forall n, match getElement n p, getElement n p1 with
             | Some e, Some e1 => dataset_language e1 = dataset_language e
             | None, None => True
             | _, _ => False
             end) ->
  scheduled sel p1 c = scheduled sel p c.
Proof.
  intros Hn H. unfold scheduled. specialize (H c).
  destruct (getElement c p) as [e|], (getElement c p1) as [e1|]; try contradiction.
  - now rewrite H, Hn.
  - reflexivity.
Qed.

(** The whole loop: the timers it queues, and the styles it leaves. *)
Lemma filterCard_fold_spec (sel : option string) (l : list nat) (p : Page) :
  let p' := fold_left (filterCard sel) l p in
  now p' = now p /\
  timers p' = (timers p ++ flat_map (scheduled sel p) l)%list /\
  forall n, match getElement n p with
            | Some e =>
                exists e', getElement n p' = Some e' /\
                  dataset_language e' = dataset_language e /\
                  display e' = if existsb (Nat.eqb n) l && selects sel (dataset_language e)
                               then "block" else display e
            | None => getElement n p' = None
            end.
Proof.
  cbv zeta. revert p. induction l as [|c l IH]; intros p; cbn [fold_left].
  - split; [reflexivity|]. split; [cbn; now rewrite app_nil_r|].
    intros n. destruct (getElement n p) as [e|]; [|reflexivity].
    exists e. repeat split.
  - destruct (filterCard_spec sel p c) as (Sn & St & Se).
    destruct (IH (filterCard sel p c)) as (In_ & It & Ie). clear IH.
    assert (Stable : forall c', scheduled sel (filterCard sel p c) c' = scheduled sel p c').
    { intros c'. apply scheduled_stable; [exact Sn|].
      intros n. rewrite (Se n). destruct (getElement n p) as [e|]; [|exact I].
      destruct (Nat.eqb n c); [apply restyle_language | reflexivity]. }
    split; [now rewrite In_|]. split.
    + rewrite It, St. cbn [flat_map]. rewrite <- app_assoc. f_equal. f_equal.
      apply flat_map_ext. exact Stable.
    + intros n. specialize (Ie n). rewrite (Se n) in Ie.
      destruct (getElement n p) as [e|]; [|exact Ie].
      destruct Ie as (e' & He' & Hl & Hd). exists e'. split; [exact He'|].
      cbn [existsb]. destruct (Nat.eqb n c) eqn:En.
      * rewrite restyle_language in Hl, Hd. rewrite restyle_display in Hd.
        split; [exact Hl|]. rewrite Hd. cbn [orb].
        destruct (selects sel (dataset_language e)), (existsb (Nat.eqb n) l); reflexivity.
      * split; [exact Hl|]. exact Hd.
Qed.

Lemma hides_scheduled (sel : option string) (p : Page) (l : list nat) (n : nat) :
  existsb (hides n) (flat_map (scheduled sel p) l) =
    existsb (Nat.eqb n) l &&
    match getElement n p with
    | Some e => negb (selects sel (dataset_language e))
    | None => false
    end.
Proof.
  induction l as [|c l IH]; [reflexivity|].
  cbn [flat_map existsb]. rewrite existsb_app, IH.
  destruct (Nat.eqb n c) eqn:En.
  - apply Nat.eqb_eq in En. subst c. unfold scheduled.
    destruct (getElement n p) as [e|].
    + destruct (selects sel (dataset_language e)); cbn [existsb hides snd negb orb andb].
      * now rewrite andb_false_r.
      * now rewrite Nat.eqb_refl.
    + cbn [existsb orb andb]. now rewrite andb_false_r.
  - cbn [orb]. unfold scheduled. destruct (getElement c p) as [e|]; [|reflexivity].
    destruct (selects sel (dataset_language e)); cbn [existsb hides snd orb]; [reflexivity|].
    rewrite (Nat.eqb_sym c n), En. reflexivity.
Qed.

Lemma scheduled_due (sel : option string) (p : Page) (l : list nat) (t : Z * callback) :
  In t (flat_map (scheduled sel p) l) -> fst t <= now p + 300 /\ is_style (snd t) = true.
Proof.
  intros H. apply in_flat_map in H. destruct H as (c & _ & H).
  unfold scheduled in H. destruct (getElement c p) as [e|]; [|destruct H].
  destruct H as [<-|[]]. destruct (selects sel (dataset_language e)); cbn; split; (lia || reflexivity).
Qed.

Lemma scheduled_length (sel : option string) (p : Page) (l : list nat) :
  (List.length (flat_map (scheduled sel p) l) <= List.length l)%nat.
Proof.
  induction l as [|c l IH]; [apply Nat.le_refl|].
  cbn [flat_map]. rewrite length_app. unfold scheduled at 1.
  destruct (getElement c p); cbn [List.length]; lia.
Qed.

(** For the cards of the captured list, on a page with no timer pending:
    300 ms after the loop a card is displayed as a block when the selection
    is [all] or its language, and not displayed otherwise.  [p1] is the
    page a listener leaves; it differs from the page after the loop in
    what the timers do not read. *)
Lemma filter_settles (sel : option string) (p p1 : Page) :
  timers p = [] ->
  now p1 = now (filterCards sel p) ->
  timers p1 = timers (filterCards sel p) ->
  elements p1 = elements (filterCards sel p) ->
  exists p',
    wait (List.length (articleCards p)) 300 p1 = Some p' /\
    forall n e, In n (articleCards p) -> getElement n p = Some e ->
      exists e', getElement n p' = Some e' /\
        dataset_language e' = dataset_language e /\
        display e' = if selects sel (dataset_language e) then "block" else "none".
Proof.
  intros Hempty Hnow Htimers Helements. unfold wait.
  assert (Hget : forall n, getElement n p1 = getElement n (filterCards sel p))
    by (intros n; unfold getElement; now rewrite Helements).
  unfold filterCards in *.
  destruct (filterCard_fold_spec sel (articleCards p) p) as (Hn & Ht & He). cbv zeta in Hn, Ht, He.
  rewrite Hempty in Ht. cbn [app] in Ht.
  destruct (run_styles (List.length (articleCards p)) (now p1 + 300) p1) as (p' & Hrun & _ & Hel).
  - intros t Hin. rewrite Htimers, Ht in Hin. rewrite Hnow, Hn. eapply scheduled_due, Hin.
  - rewrite Htimers, Ht. apply scheduled_length.
  - exists p'. split; [exact Hrun|].
    intros n e Hin Hg. specialize (He n). rewrite Hg in He.
    destruct He as (e1 & He1 & Hl1 & Hd1). rewrite <- Hget in He1.
    destruct (Hel n e1 He1) as (e' & He' & Hl' & Hd').
    exists e'. split; [exact He'|]. split; [congruence|].
    rewrite Hd', Hd1, Htimers, Ht, hides_scheduled, Hg.
    assert (Ein : existsb (Nat.eqb n) (articleCards p) = true).
    { apply existsb_exists. exists n. split; [exact Hin | apply Nat.eqb_refl]. }
    rewrite Ein. cbn [andb]. destruct (selects sel (dataset_language e)); reflexivity.
Qed.

(** The dropdown, for the cards that were in the document when
    [initializeLanguageFilter] ran. *)
Lemma languageFilter_change_captured (value : string) (p : Page) :
  timers p = [] ->
  exists p',
    wait (List.length (articleCards p)) 300 (languageFilter_change value p) = Some p' /\
    forall n e, In n (articleCards p) -> getElement n p = Some e ->
      exists e', getElement n p' = Some e' /\
        dataset_language e' = dataset_language e /\
        display e' = if selects (Some value) (dataset_language e) then "block" else "none".
Proof.
  intros Hempty. apply filter_settles; [exact Hempty | reflexivity..].
Qed.

(** The language buttons, likewise. *)
Lemma languageButton_click_captured (i : nat) (this : LanguageButton) (p : Page) :
  timers p = [] ->
  nth_error (languageButtons p) i = Some this ->
  exists p',
    wait (List.length (articleCards p)) 300 (languageButton_click i p) = Some p' /\
    forall n e, In n (articleCards p) -> getElement n p = Some e ->
      exists e', getElement n p' = Some e' /\
        dataset_language e' = dataset_language e /\
        display e' = if selects (lb_language this) (dataset_language e)
                     then "block" else "none".
Proof.
  intros Hempty Hthis. unfold languageButton_click. rewrite Hthis. cbv zeta.
  set (bs := activate i (map (fun btn => mkLanguageButton (lb_language btn) false)
                             (languageButtons p))).
  destruct (filter_settles (lb_language this) (set_languageButtons bs p)
              (updateArticleCount (lb_language this)
                 (filterCards (lb_language this) (set_languageButtons bs p))))
    as (p' & Hw & Hall).
  - exact Hempty.
  - unfold updateArticleCount. cbv zeta. destruct (articleCount _); reflexivity.
  - unfold updateArticleCount. cbv zeta. destruct (articleCount _); reflexivity.
  - unfold updateArticleCount. cbv zeta. destruct (articleCount _); reflexivity.
  - exists p'. split; [exact Hw|]. intros n e Hin Hg. apply (Hall n e Hin Hg).
Qed.

End Controller.

(** ** Concrete runs *)

(** C1: a card that load-more appended is not in the list the filter walks.
    The page starts with an English and a Kinyarwanda card; load-more
    appends a Kinyarwanda card; then English is selected in the dropdown.
    After the 300 ms the first Kinyarwanda card is hidden and the appended
    one is not: its display was never touched. *)
Theorem appended_card_escapes_filter :
  let p0 := initializeLanguageFilter
              (set_fresh 2 (set_elements [(0%nat, Sample.card "en"); (1%nat, Sample.card "rw")]
                                         Sample.blank)) in
  let click := loadMore_click p0 in
  let p1 := loadMore_response Sample.Date_parse Sample.toLocaleDateString Sample.toUpperCase
              (snd click) (Resolved (mkListing (Some [Sample.article "7" "Amakuru" "rw"])))
              (fst click) in
  let p2 := languageFilter_change "en" p1 in
  articleCards p2 = [0%nat; 1%nat] /\
  selects (Some "en") (Some "rw") = false /\
  exists p3,
    wait 2 300 p2 = Some p3 /\
    map (fun ne => (fst ne, dataset_language (snd ne), display (snd ne)))
        (querySelectorAll "article-card" p3)
    = [(0%nat, Some "en", "block"); (1%nat, Some "rw", "none"); (2%nat, Some "rw", EmptyString)].
Proof.
  cbv zeta. split; [reflexivity|]. split; [reflexivity|].
  eexists. split; vm_compute; reflexivity.
Qed.

(** A second selection made before the timers of the first have fired:
    Kinyarwanda is selected, and 100 ms later [all].  The [Hide] that the
    first selection queued for the English card fires 200 ms after the
    second, and the card ends hidden under the selection [all]. *)
Example pending_hide_overrides_later_selection :
  let p0 := initializeLanguageFilter
              (set_fresh 1 (set_elements [(0%nat, Sample.card "en")] Sample.blank)) in
  let p1 := languageFilter_change "rw" p0 in
  exists p2 p3,
    wait 2 100 p1 = Some p2 /\
    wait 2 300 (languageFilter_change "all" p2) = Some p3 /\
    now p3 = 400 /\ timers p3 = [] /\
    selects (Some "all") (Some "en") = true /\
    option_map display (getElement 0 p3) = Some "none".
Proof.
  cbv zeta. do 2 eexists.
  split; [vm_compute; reflexivity|]. split; [vm_compute; reflexivity|].
  repeat split.
Qed.



(** C3 on a language button, and on the history.  The click on a button
    filters the cards and touches neither the URL nor the history; the
    dropdown puts the new URL on top of the previous entry, which stays. *)
Lemma button_keeps_url_and_dropdown_pushes :
  let p := set_languageButtons [mkLanguageButton (Some "all") true;
                                mkLanguageButton (Some "en") false] Sample.blank in
  let clicked := languageButton_click 1 p in
  let changed := languageFilter_change "en" p in
  languageButtons clicked =
    [mkLanguageButton (Some "all") false; mkLanguageButton (Some "en") true] /\
  search clicked = search p /\
  history clicked = history p /\
  effects clicked = effects p /\
  Params.get "language" (search clicked) <> Some "en" /\
  search changed = [("language", "en")] /\
  history changed = [search p].
Proof.
  cbv zeta. split; [reflexivity|]. split; [reflexivity|]. split; [reflexivity|].
  split; [reflexivity|]. split; [discriminate|]. split; reflexivity.
Qed.

(** C5 at 90 seconds after the epoch. *)
Lemma formatTimeAgo_thresholds_witness :
  formatTimeAgo Sample.Date_parse Sample.toLocaleDateString 90000 "1970-01-01T00:00:00.000Z"
  = "1m ago".
Proof.
  pose proof (formatTimeAgo_thresholds Sample.Date_parse Sample.toLocaleDateString
                90000 "1970-01-01T00:00:00.000Z" 0 eq_refl
                (fun H => ltac:(discriminate H))) as T.
  cbv zeta in T. destruct T as (_ & _ & _ & _ & _ & _ & T & _).
  apply T. reflexivity.
Defined.

(** C6: the card of one article, 45 and 90 seconds after its timestamp. *)
Lemma createArticleCard_changes_with_clock :
  let article := Sample.article "7" "Amakuru" "rw" in
  let card t := createArticleCard Sample.Date_parse Sample.toLocaleDateString
                  Sample.toUpperCase t article in
  containsb "just now" (innerHTML (card 45000)) = true /\
  containsb "just now" (innerHTML (card 90000)) = false /\
  containsb "1m ago" (innerHTML (card 90000)) = true /\
  card 45000 <> card 90000.
Proof.
  cbv zeta. split; [vm_compute; reflexivity|]. split; [vm_compute; reflexivity|].
  split; [vm_compute; reflexivity|].
  intros H. apply (f_equal (fun e => containsb "just now" (innerHTML e))) in H.
  vm_compute in H. discriminate H.
Qed.


(** The markup of that answer holds three result items, and the
    placeholder of an empty answer names the query. *)
Example search_rwanda_three_items :
  let three := [Sample.article "1" "Kigali" "en"; Sample.article "2" "Amakuru" "rw";
                Sample.article "3" "Umuganda" "fr"] in
  let html := results_html Sample.Date_parse Sample.toLocaleDateString 0 "rwanda" three in
  count_occurrences item_open html = 3%nat /\
  count_occurrences badge_EN html = 1%nat /\
  count_occurrences badge_RW html = 2%nat /\
  containsb "Kigali" html = true /\ containsb "Amakuru" html = true /\
  containsb "Umuganda" html = true /\
  containsb "No results found for `rwanda`" (no_results_html "rwanda") = false /\
  containsb (q "No results found for `rwanda`") (no_results_html "rwanda") = true.
Proof.
  vm_compute. repeat split.
Qed.

(** C9: a search for [rwanda] whose answer does not parse. *)
Lemma search_failure_keeps_results_witness :
  let p0 := set_searchResults (Some (mkBox "<h3>Earlier results</h3>" "block")) Sample.blank in
  let submit := search_submit (fun s => s) "rwanda" p0 in
  let p' := search_response Sample.Date_parse Sample.toLocaleDateString "rwanda" ParseError
              (fst submit) in
  searchResults p' = Some (mkBox "<h3>Earlier results</h3>" "block") /\
  effects p' = [Fetch "GET" "http://localhost:8000/api/v1/articles/?search=rwanda&limit=50";
                ConsoleError "Search error:";
                Notify "Error performing search. Please try again." "error";
                SetTimeout 5000].
Proof.
  cbv zeta.
  pose proof (search_failure_keeps_results Sample.Date_parse Sample.toLocaleDateString
                (fun s => s) "rwanda" "rwanda" ParseError
                (set_searchResults (Some (mkBox "<h3>Earlier results</h3>" "block")) Sample.blank)
                (fst (search_submit (fun s => s) "rwanda"
                        (set_searchResults (Some (mkBox "<h3>Earlier results</h3>" "block"))
                           Sample.blank)))
                (fst (search_submit (fun s => s) "rwanda"
                        (set_searchResults (Some (mkBox "<h3>Earlier results</h3>" "block"))
                           Sample.blank)))
                eq_refl (or_intror eq_refl)) as T.
  cbv zeta in T. destruct T as (_ & T1 & T2 & _). split; [exact T1 | exact T2].
Defined.



(** The countdown of a fetch-now click, run to its end: 31 ticks, the label
    going from 30 down to 0, and the reload at the last one. *)
Example fetchNews_countdown_reloads :
  let click := fetchNews_click Sample.blank in
  let p1 := fetchNews_response (snd click) (Resolved JNull) (fst click) in
  exists p2 p3,
    wait 40 30999 p1 = Some p2 /\
    btn_innerHTML (fetchNewsBtn p2) = refreshing_label 1 /\
    ~ In Reload (effects p2) /\
    wait 40 31000 p1 = Some p3 /\
    btn_innerHTML (fetchNewsBtn p3) = refreshing_label 0 /\
    effects p3 =
      [Fetch "POST" "http://localhost:8000/api/v1/fetcher/fetch-now";
       Notify "Started fetching latest news! This may take a moment." "success";
       SetTimeout 5000; SetInterval 1000; ClearInterval; Reload].
Proof.
  cbv zeta. do 2 eexists.
  split; [vm_compute; reflexivity|]. split; [vm_compute; reflexivity|].
  split; [vm_compute; intros H; repeat (destruct H as [H|H]; [discriminate H|]); exact H|].
  split; [vm_compute; reflexivity|]. split; vm_compute; reflexivity.
Qed.
